(** * Shallow embedding of the ledger classification and metrics engine
    of jcw_financials ([src/business_logic.py], [src/forecasting.py],
    [src/addback_rules.py], [src/kpi_lab.py], [src/reconciliation.py]).

    Modelling conventions:
    - Python strings are Stdlib [string]s of ASCII characters; [str.lower],
      [str.strip], [\s] and [\d] are modelled on ASCII ([\s] is the set of
      characters Python's [str.isspace] accepts below 128).
    - Ledger amounts are rationals [Q]; floating-point rounding is not
      modelled (every fixture below uses exactly representable values).
    - Calendar dates are day numbers [Z]; a missing/unparseable date
      ([NaT]) is [None].
    - A dataframe is a list of row records, in row order; vectorised masks
      become per-row boolean functions. *)

From Stdlib Require Import String Ascii Bool List ZArith QArith Qabs Qround Lia.
From Stdlib Require Import Permutation Sorted Lqa.
From stdpp Require Import base gmap strings.
Import ListNotations.

Open Scope string_scope.

(* ------------------------------------------------------------------ *)
(** ** Character and string primitives *)

Module PyStr.

(** [str.isspace] on ASCII: \t \n \v \f \r, the separators 0x1c-0x1f, space. *)
Definition is_space (c : ascii) : bool :=
  let n := nat_of_ascii c in
  ((9 <=? n) && (n <=? 13))%nat || ((28 <=? n) && (n <=? 32))%nat.

Definition is_digit (c : ascii) : bool :=
  let n := nat_of_ascii c in ((48 <=? n) && (n <=? 57))%nat.

Definition lower_char (c : ascii) : ascii :=
  let n := nat_of_ascii c in
  if ((65 <=? n) && (n <=? 90))%nat then ascii_of_nat (n + 32) else c.

(** [str.lower] *)
Fixpoint lower (s : string) : string :=
  match s with
  | EmptyString => EmptyString
  | String c t => String (lower_char c) (lower t)
  end.

(** [str.lstrip()] *)
Fixpoint lstrip (s : string) : string :=
  match s with
  | EmptyString => EmptyString
  | String c t => if is_space c then lstrip t else s
  end.

(** [str.rstrip()] *)
Fixpoint rstrip (s : string) : string :=
  match s with
  | EmptyString => EmptyString
  | String c t =>
      let t' := rstrip t in
      match t' with
      | EmptyString => if is_space c then EmptyString else String c EmptyString
      | _ => String c t'
      end
  end.

(** [str.strip()] *)
Definition strip (s : string) : string := rstrip (lstrip s).

(** [s.startswith(p)] *)
Fixpoint starts_with (p s : string) : bool :=
  match p, s with
  | EmptyString, _ => true
  | String a p', String b s' => Ascii.eqb a b && starts_with p' s'
  | String _ _, EmptyString => false
  end.

(** [p in s] (substring search) *)
Fixpoint contains (s p : string) : bool :=
  match s with
  | EmptyString => starts_with p s
  | String _ t => starts_with p s || contains t p
  end.

(** The longest prefix made of digits ([\d+] matched greedily). *)
Fixpoint leading_digits (s : string) : string :=
  match s with
  | String c t => if is_digit c then String c (leading_digits t) else EmptyString
  | EmptyString => EmptyString
  end.

End PyStr.

Import PyStr.

(* ------------------------------------------------------------------ *)
(** ** Account prefix extractors ([business_logic.py] lines 23-55) *)

(** [account_code_prefix]: [re.match(r"^\s*(\d{3})", str(account))].
    [\s*] and [\d] are disjoint, so the greedy [\s*] never backtracks. *)
Definition account_code_prefix (account : option string) : option string :=
  match account with
  | None => None
  | Some s =>
      match lstrip s with
      | String a (String b (String c _)) =>
          if is_digit a && is_digit b && is_digit c
          then Some (String a (String b (String c EmptyString)))
          else None
      | _ => None
      end
  end.

(** [extract_account_prefix]: blank / ["nan"] give [None], otherwise
    [re.match(r"^\s*(\d+)", s)]. *)
Definition extract_account_prefix (account : option string) : option string :=
  match account with
  | None => None
  | Some s =>
      if String.eqb (strip s) "" || String.eqb (lower (strip s)) "nan" then None
      else
        match leading_digits (lstrip s) with
        | EmptyString => None
        | ds => Some ds
        end
  end.

(* ------------------------------------------------------------------ *)
(** ** Transactions and [classify_transactions] ([business_logic.py] 57-130) *)

(** One row of the normalised ledger. A missing text column reads as [""]
    (the code substitutes [pd.Series([""] * len(df))]). *)
Record Txn := mkTxn {
  t_date : option Z;
  t_account : string;
  t_account_type : string;
  t_name : string;
  t_memo : string;
  t_amount : Q;
}.

(** A row of [classify_transactions]' output: the input row plus the
    derived columns. *)
Record CTxn := mkCTxn {
  c_txn : Txn;
  c_account_prefix : option string;
  c_is_revenue : bool;
  c_is_cogs : bool;
  c_is_overhead : bool;
  c_is_other_expense : bool;
  c_classification : string;
}.

Definition default_cogs_prefixes : list string := ["704"; "705"; "706"; "707"; "708"].

(** [Series.isin(prefixes)] on the [account_prefix] column; [None] is in no
    set of strings. *)
Definition prefix_in (p : option string) (prefixes : list string) : bool :=
  match p with
  | None => false
  | Some s => existsb (String.eqb s) prefixes
  end.

(** [atype.str.fullmatch(r"\s*cogs\s*")] *)
Definition fullmatch_cogs (atype : string) : bool :=
  String.eqb (strip atype) "cogs".

Section Masks.
Variable r : Txn.

Definition atype : string := lower (t_account_type r).
Definition account_lower : string := lower (t_account r).

Definition revenue_mask : bool :=
  contains atype "income" || contains account_lower "income".
Definition other_exp_mask : bool :=
  contains atype "other expense" || contains atype "other income".
Definition expense_like : bool :=
  contains atype "expense" || contains atype "cost of goods sold" || contains atype "cogs".
Definition is_explicit_cogs : bool :=
  contains atype "cost of goods sold" || fullmatch_cogs atype.

End Masks.

(** Per-row body of [classify_transactions]: the masks, then the three
    "Ensure mutual exclusivity" assignments, then [np.select]. *)
Definition classify_row (cogs_prefixes : list string) (r : Txn) : CTxn :=
  let prefix := extract_account_prefix (Some (t_account r)) in
  (* flags after the mask assignments (lines 84-111) *)
  let rev0 := revenue_mask r in
  let oth0 := other_exp_mask r && negb (revenue_mask r) in
  let remaining := expense_like r && negb rev0 && negb oth0 in
  let cogs_mask := remaining && (is_explicit_cogs r || prefix_in prefix cogs_prefixes) in
  let overhead_mask := remaining && negb cogs_mask in
  (* line 114 *)
  let rev1 := rev0 in
  let cogs1 := if rev1 then false else cogs_mask in
  let ovh1 := if rev1 then false else overhead_mask in
  let oth1 := if rev1 then false else oth0 in
  (* line 115 *)
  let cogs2 := if oth1 then false else cogs1 in
  let ovh2 := if oth1 then false else ovh1 in
  (* line 116 *)
  let ovh3 := if cogs2 then false else ovh2 in
  let cls :=
    if rev1 then "Revenue"
    else if cogs2 then "COGS"
    else if ovh3 then "Overhead"
    else if oth1 then "Other"
    else if String.eqb (atype r) "" then "Unclassified" else "Other" in
  mkCTxn r prefix rev1 cogs2 ovh3 oth1 cls.

(** [classify_transactions(df, cogs_prefixes)]; [None] selects the default
    prefix set. *)
Definition classify_transactions (df : list Txn) (cogs_prefixes : option (list string))
  : list CTxn :=
  let ps := match cogs_prefixes with None => default_cogs_prefixes | Some p => p end in
  map (classify_row ps) df.

Definition count_true (bs : list bool) : nat := length (List.filter (fun b : bool => b) bs).

Definition flags (c : CTxn) : list bool :=
  [c_is_revenue c; c_is_cogs c; c_is_overhead c; c_is_other_expense c].

(* ------------------------------------------------------------------ *)
(** ** Metrics dictionaries: legacy add-in and run rates *)

Open Scope Q_scope.

(** A metrics dict ([dict[str, float]]). *)
Abbreviation metrics_dict := (gmap string Q).

(** [out.get(k, 0.0) or 0.0] *)
Definition get0 (m : metrics_dict) (k : string) : Q :=
  match m !! k with Some v => v | None => 0 end.

(** [apply_legacy_overhead_addins] ([business_logic.py] 335-365).
    [metrics = None] reads as [{}] ([dict(metrics or {})]). *)
Definition apply_legacy_overhead_addins (metrics : option metrics_dict)
    (legacy_overhead_included_total : Q) : metrics_dict :=
  let out := match metrics with None => ∅ | Some m => m end in
  let legacy_total := legacy_overhead_included_total in
  if Qeq_bool legacy_total 0 then out
  else
    let revenue := get0 out "revenue" in
    let cogs := get0 out "cogs" in
    let overhead := get0 out "overhead" + legacy_total in
    let other_expense := get0 out "other_expense" in
    let addbacks := get0 out "addbacks" in
    let net_profit := revenue - (cogs + overhead + other_expense) in
    <["legacy_overhead_included" := legacy_total]>
    (<["sde" := net_profit + addbacks]>
    (<["net_profit" := net_profit]>
    (<["gross_profit" := revenue - cogs]>
    (<["overhead" := overhead]> out)))).

(** The fixed average month length [30.4375 = 487/16]. *)
Definition avg_month_days : Q := 487 # 16.

(** [calculate_run_rates] ([forecasting.py] 4-32):
    [months = max(days / 30.4375, 1.0)], then [v / months] for every key. *)
Definition calculate_run_rates (owner_metrics : metrics_dict)
    (days_in_owner_revenue_period : Z) : metrics_dict :=
  let ratio := inject_Z days_in_owner_revenue_period / avg_month_days in
  let months := if Qle_bool 1 ratio then ratio else 1 in
  (fun v => v / months) <$> owner_metrics.

(* ------------------------------------------------------------------ *)
(** ** Period and owner metrics ([business_logic.py] 6-20, 178-295, 367-407) *)

(** Strict order test on [Q] ([x < y] in Python). *)
Definition Qltb (x y : Q) : bool := negb (Qle_bool y x).

(** [_net_to_positive] *)
Definition net_to_positive (total : Q) : Q :=
  if Qltb total 0 then - total else total.

(** [series.sum()] *)
Definition sumQ (xs : list Q) : Q := fold_left Qplus xs 0.

(** A classified row carrying its [sde_addback_flag]. *)
Record FTxn := mkFTxn {
  f_row : CTxn;
  f_addback : bool;
}.

Definition f_date (r : FTxn) : option Z := t_date (c_txn (f_row r)).
Definition f_amount (r : FTxn) : Q := t_amount (c_txn (f_row r)).
Definition f_account (r : FTxn) : string := t_account (c_txn (f_row r)).

(** [df.loc[mask, "amount"].sum()] *)
Definition sum_where (p : FTxn -> bool) (df : list FTxn) : Q :=
  sumQ (map f_amount (List.filter p df)).

(** The addback sign-preference: positive amounts if any, else the negated
    negative ones ([business_logic.py] 269-273 and 388-392). *)
Definition addbacks_of (amounts : list Q) : Q :=
  if existsb (fun a => Qltb 0 a) amounts
  then sumQ (List.filter (fun a => Qltb 0 a) amounts)
  else - sumQ (List.filter (fun a => Qltb a 0) amounts).

Record Metrics := mkMetrics {
  revenue : Q; cogs : Q; overhead : Q; other_expense : Q;
  gross_profit : Q; net_profit : Q; addbacks : Q; sde : Q;
}.

(** [get_period_metrics(df_period, start_date, end_date)]: no date filter. *)
Definition get_period_metrics (df_period : list FTxn) : Metrics :=
  let rev := net_to_positive (sum_where (fun r => c_is_revenue (f_row r)) df_period) in
  let cg := net_to_positive (sum_where (fun r => c_is_cogs (f_row r)) df_period) in
  let ov := net_to_positive (sum_where (fun r => c_is_overhead (f_row r)) df_period) in
  let ox := net_to_positive (sum_where (fun r => c_is_other_expense (f_row r)) df_period) in
  let ab := addbacks_of (map f_amount (List.filter f_addback df_period)) in
  let np := rev - (cg + ov + ox) in
  mkMetrics rev cg ov ox (rev - cg) np ab (np + ab).

Record OwnerMetrics := mkOwnerMetrics {
  o_revenue : Q; o_cogs : Q; o_legacy_cogs : Q; o_overhead : Q; o_other_expense : Q;
  o_gross_profit : Q; o_net_profit : Q; o_addbacks : Q; o_sde : Q;
  o_legacy_july_total_expense : Q;
  o_legacy_july_excluded_job_cost : Q;
  o_legacy_july_included_overhead : Q;
}.

(** [date >= z] and [date < z] on a [datetime] column: [NaT] compares false. *)
Definition date_ge (d : option Z) (z : Z) : bool :=
  match d with Some x => (z <=? x)%Z | None => false end.
Definition date_le (d : option Z) (z : Z) : bool :=
  match d with Some x => (x <=? z)%Z | None => false end.
Definition date_lt (d : option Z) (z : Z) : bool :=
  match d with Some x => (x <? z)%Z | None => false end.

Definition is_expense_row (r : FTxn) : bool :=
  c_is_overhead (f_row r) || c_is_other_expense (f_row r) || c_is_cogs (f_row r).

(** [get_owner_metrics] *)
Definition get_owner_metrics (df : list FTxn) (owner_period_start current_date
    owner_revenue_start : Z) (addback_account_overrides : list string)
    (exclude_legacy_july_job_costs : bool)
    (legacy_job_cost_prefixes : option (list string)) : OwnerMetrics :=
  let w := List.filter (fun r => date_ge (f_date r) owner_period_start
                                 && date_le (f_date r) current_date) df in
  let rev_mask r := c_is_revenue (f_row r) && date_ge (f_date r) owner_revenue_start in
  let revenue := net_to_positive (sum_where rev_mask w) in
  let july r := date_ge (f_date r) owner_period_start && date_lt (f_date r) owner_revenue_start in
  let aug r := date_ge (f_date r) owner_revenue_start in
  let jp := match legacy_job_cost_prefixes with None => default_cogs_prefixes | Some p => p end in
  let job r := prefix_in (account_code_prefix (Some (f_account r))) jp in
  let legacy_total := net_to_positive (sum_where (fun r => july r && is_expense_row r) w) in
  let legacy_excl := net_to_positive
                       (sum_where (fun r => july r && job r && is_expense_row r) w) in
  let cogs := net_to_positive (sum_where (fun r => c_is_cogs (f_row r) && aug r) w) in
  let legacy_cogs := net_to_positive (sum_where (fun r => c_is_cogs (f_row r) && july r) w) in
  let overhead_aug_raw := sum_where (fun r => c_is_overhead (f_row r) && aug r) w in
  let july_ovh r := if exclude_legacy_july_job_costs
                    then c_is_overhead (f_row r) && july r && negb (job r)
                    else c_is_overhead (f_row r) && july r in
  let legacy_incl_raw := sum_where july_ovh w in
  let overhead := net_to_positive (overhead_aug_raw + legacy_incl_raw) in
  let other := net_to_positive (sum_where (fun r => c_is_other_expense (f_row r) && aug r) w) in
  let ab_mask r := f_addback r
                   || existsb (String.eqb (f_account r)) addback_account_overrides in
  let addbacks := addbacks_of (map f_amount (List.filter ab_mask w)) in
  let np := revenue - (cogs + overhead + other) in
  mkOwnerMetrics revenue cogs legacy_cogs overhead other (revenue - cogs) np
    addbacks (np + addbacks) legacy_total legacy_excl (net_to_positive legacy_incl_raw).

(* ------------------------------------------------------------------ *)
(** ** Monthly addbacks of the KPI rollup ([kpi_lab.py] 16-31, 144-146) *)

(** The columns [_addbacks_by_month] receives: [month], [amount],
    [sde_addback_flag]. A month period is a [Z] (e.g. [12 * year + month]). *)
Record KRow := mkKRow { k_month : Z; k_amount : Q; k_flag : bool }.

(** Insert into a sorted duplicate-free list (the group keys of
    [groupby("month")], sorted by default). *)
Fixpoint insert_key (m : Z) (ks : list Z) : list Z :=
  match ks with
  | [] => [m]
  | k :: ks' =>
      if (m =? k)%Z then ks
      else if (m <? k)%Z then m :: ks
      else k :: insert_key m ks'
  end.

Definition group_keys (ms : list Z) : list Z := fold_right insert_key [] ms.

(** [_addbacks_by_month]: for each month of the flagged subset, the sum of
    [abs(amount)] over the month's flagged rows. *)
Definition addbacks_by_month (df : list KRow) : list (Z * Q) :=
  let subset := List.filter k_flag df in
  match subset with
  | [] => []
  | _ =>
      map (fun m => (m, sumQ (map (fun r => Qabs (k_amount r))
                                (List.filter (fun r => (k_month r =? m)%Z) subset))))
          (group_keys (map k_month subset))
  end.

(** The [addbacks] column of [compute_monthly_kpis] for month [m]: the left
    merge on [month] followed by [fillna(0.0)]. *)
Definition monthly_addbacks (df : list KRow) (m : Z) : Q :=
  match find (fun p => (fst p =? m)%Z) (addbacks_by_month df) with
  | Some (_, a) => a
  | None => 0
  end.

(* ------------------------------------------------------------------ *)
(** ** Addback rules ([addback_rules.py] 12-71, 124-192) *)

Local Set Warnings "-register-all".

(** A JSON value as [json.loads] produces it (objects as values do not
    occur in the rules file's fields). *)
Inductive jval :=
| JNull
| JBool (b : bool)
| JNum (q : Q)
| JStr (s : string)
| JList (l : list jval).

(** The [AddbackRule] dataclass. *)
Record AddbackRule := mkRule {
  r_name : string;
  r_account_contains : option (list string);
  r_name_contains : option (list string);
  r_memo_contains : option (list string);
  r_amount : option Q;
  r_amount_tolerance : option Q;
}.

(** A ledger row carrying the [sde_addback_flag] / [sde_addback_reason]
    columns that [apply_rules_to_df] updates. *)
Record ARow := mkARow { a_txn : Txn; a_flag : bool; a_reason : string }.

Section Rules.

(** Python builtins not embedded here: [str(v)] of a number or a list,
    [float(s)] of a string ([None] when it raises [ValueError]) and
    [re.search(pattern, text)] (pandas' [str.contains] is a regex search). *)
Variable py_str_other : jval -> string.
Variable py_float_of_string : string -> option Q.
Variable regex_search : string -> string -> bool.

(** [bool(v)] *)
Definition truthy (v : jval) : bool :=
  match v with
  | JNull => false
  | JBool b => b
  | JNum q => negb (Qeq_bool q 0)
  | JStr s => negb (String.eqb s "")
  | JList l => match l with [] => false | _ => true end
  end.

(** [str(v)] *)
Definition py_str (v : jval) : string :=
  match v with
  | JNull => "None"
  | JBool true => "True"
  | JBool false => "False"
  | JStr s => s
  | _ => py_str_other v
  end.

(** [float(v)]; [None] models the raised [ValueError]/[TypeError]. *)
Definition py_float (v : jval) : option Q :=
  match v with
  | JNum q => Some q
  | JBool b => Some (if b then 1 else 0)
  | JStr s => py_float_of_string s
  | _ => None
  end.

(** [obj.get(k)]: a missing key reads as [None]. *)
Definition jget (obj : gmap string jval) (k : string) : jval :=
  match obj !! k with Some v => v | None => JNull end.

(** [_as_list] *)
Definition as_list (v : jval) : option (list string) :=
  match v with
  | JNull => None
  | JStr s => let s' := strip s in if String.eqb s' "" then None else Some [s']
  | JList l =>
      let out := List.filter (fun x => negb (String.eqb x ""))
                   (map (fun x => strip (py_str x)) l) in
      match out with [] => None | _ => Some out end
  | _ => None
  end.

(** [float(x)] for an optional field: [None] / [""] give [None]. *)
Definition opt_float (v : jval) : option (option Q) :=
  match v with
  | JNull => Some None
  | JStr "" => Some None
  | _ => match py_float v with Some q => Some (Some q) | None => None end
  end.

(** [parse_rule]: [inl msg] is a raised exception. *)
Definition parse_rule (obj : gmap string jval) : string + AddbackRule :=
  let nv := jget obj "name" in
  let name := strip (py_str (if truthy nv then nv else JStr "")) in
  if String.eqb name "" then inl "Addback rule missing required 'name'"
  else
    match opt_float (jget obj "amount") with
    | None => inl "ValueError"
    | Some amount_f =>
        match opt_float (jget obj "amount_tolerance") with
        | None => inl "ValueError"
        | Some tol_f =>
            inr (mkRule name (as_list (jget obj "account_contains"))
                   (as_list (jget obj "name_contains"))
                   (as_list (jget obj "memo_contains")) amount_f tol_f)
        end
    end.

(** [_contains_all] on one row's text. *)
Definition contains_all (h : string) (needles : option (list string)) : bool :=
  match needles with
  | None | Some [] => true
  | Some ns =>
      forallb (fun n => let n0 := lower (strip n) in
                        if String.eqb n0 "" then true else regex_search n0 (lower h)) ns
  end.

Definition payroll_rule_name : string := "weekly_payroll_addback_2880".

(** The mask of one rule on one row. *)
Definition rule_mask (payroll_start : Z) (rule : AddbackRule) (r : Txn) : bool :=
  let tol := match r_amount_tolerance rule with Some t => t | None => 1 # 100 end in
  contains_all (t_account r) (r_account_contains rule)
  && contains_all (t_name r) (r_name_contains rule)
  && contains_all (t_memo r) (r_memo_contains rule)
  && (if String.eqb (r_name rule) payroll_rule_name
      then date_ge (t_date r) payroll_start else true)
  && match r_amount rule with
     | Some a => Qle_bool (Qabs (Qabs (t_amount r) - Qabs a)) tol
     | None => true
     end.

(** One iteration of the rule loop. *)
Definition apply_rule (payroll_start : Z) (out : list ARow) (rule : AddbackRule)
  : list ARow :=
  if negb (existsb (fun a => rule_mask payroll_start rule (a_txn a)) out) then out
  else
    map (fun a =>
           if rule_mask payroll_start rule (a_txn a)
           then mkARow (a_txn a) true
                  (a_reason a ++ (if String.eqb (a_reason a) "" then "" else ", ")
                   ++ "rule=" ++ r_name rule)
           else a) out.

(** [apply_rules_to_df(df, rules, payroll_start=...)] *)
Definition apply_rules_to_df (df : list ARow) (rules : list AddbackRule)
    (payroll_start : Z) : list ARow :=
  fold_left (apply_rule payroll_start) rules df.

End Rules.

(* ------------------------------------------------------------------ *)
(** ** Bank reconciliation matcher ([reconciliation.py] 155-253) *)

(** A row of either table: its index label, its date ([.dt.date], [None]
    for [NaT]) and its amount. *)
Record LRow := mkLRow { l_label : Z; l_date : option Z; l_amount : Q }.

(** [Series.round(2)] (numpy's round-half-to-even), in cents. *)
Definition round_cents (q : Q) : Z :=
  let y := q * 100 in
  let fl := Qfloor y in
  let frac := y - inject_Z fl in
  if Qltb frac (1 # 2) then fl
  else if Qltb (1 # 2) frac then (fl + 1)%Z
  else if Z.even fl then fl else (fl + 1)%Z.

(** One row of [matched_df]: [qb_index], [bank_index], [qb_date],
    [qb_amount], [bank_date], [bank_amount]. *)
Record MatchRow := mkMatchRow {
  m_qb_index : Z; m_bank_index : Z;
  m_qb_date : option Z; m_qb_amount : Q;
  m_bank_date : option Z; m_bank_amount : Q;
}.

Definition mem_label (l : Z) (ls : list Z) : bool := existsb (Z.eqb l) ls.

(** [bank_groups.groups[amt]]: the labels of the bank rows whose rounded
    amount is [amt], in row order. *)
Definition group_labels (bank : list LRow) (amt : Z) : list Z :=
  map l_label (List.filter (fun b => (round_cents (l_amount b) =? amt)%Z) bank).

(** [bank.loc[labels]]: for each label in turn, every bank row carrying it. *)
Definition loc_rows (bank : list LRow) (labels : list Z) : list LRow :=
  flat_map (fun l => List.filter (fun b => (l_label b =? l)%Z) bank) labels.

(** [candidate_bank["date_obj"].between(min_date, max_date)] *)
Definition in_window (tol dq : Z) (b : LRow) : bool :=
  match l_date b with
  | Some d => ((dq - tol <=? d) && (d <=? dq + tol))%Z
  | None => false
  end.

Definition date_diff (dq : Z) (b : LRow) : Z :=
  match l_date b with Some d => Z.abs (d - dq) | None => 0%Z end.

(** [date_diffs.idxmin()]: the first row of least date difference. *)
Fixpoint idxmin (dq : Z) (best : LRow) (rest : list LRow) : LRow :=
  match rest with
  | [] => best
  | c :: cs => if (date_diff dq c <? date_diff dq best)%Z
               then idxmin dq c cs else idxmin dq best cs
  end.

(** The body of the loop for one ledger row: the chosen bank row, if any. *)
Definition pick (bank : list LRow) (tol : Z) (used : list Z) (q : LRow) : option LRow :=
  let amt := round_cents (l_amount q) in
  match group_labels bank amt with
  | [] => None
  | labels =>
      match l_date q with
      | None => None
      | Some dq =>
          let cands := List.filter (fun b => negb (mem_label (l_label b) used))
                         (List.filter (in_window tol dq) (loc_rows bank labels)) in
          match cands with
          | [] => None
          | c :: cs => Some (idxmin dq c cs)
          end
      end
  end.

(** The [for qb_idx, qb_row in qb.iterrows()] loop, threading
    [used_bank_indices]. *)
Fixpoint match_loop (bank : list LRow) (tol : Z) (used : list Z) (qb : list LRow)
  : list MatchRow :=
  match qb with
  | [] => []
  | q :: qs =>
      match pick bank tol used q with
      | None => match_loop bank tol used qs
      | Some b =>
          mkMatchRow (l_label q) (l_label b) (l_date q) (l_amount q)
            (l_date b) (l_amount b)
          :: match_loop bank tol (l_label b :: used) qs
      end
  end.

Record MatchResult := mkMatchResult {
  matched : list MatchRow;
  unmatched_qb : list LRow;
  unmatched_bank : list LRow;
}.

(** [match_qb_and_bank(qb_df, bank_df, date_tolerance_days=tol)];
    the unmatched tables keep the rows whose label was not used. *)
Definition match_qb_and_bank (qb bank : list LRow) (date_tolerance_days : Z)
  : MatchResult :=
  let ms := match_loop bank date_tolerance_days [] qb in
  let qb_used := map m_qb_index ms in
  let bank_used := map m_bank_index ms in
  mkMatchResult ms
    (List.filter (fun q => negb (mem_label (l_label q) qb_used)) qb)
    (List.filter (fun b => negb (mem_label (l_label b) bank_used)) bank).

(* ------------------------------------------------------------------ *)
(** ** Year-1 forecast ([forecasting.py] 34-53) *)

(** [forecast_year_1]: [months_remaining = max(days / 30.4375, 0)],
    [forecast_add = {k: v * months_remaining}] over the run rates, and for
    every key [k] of the YTD dict
    [ytd.get(k, 0) + forecast_add.get(k, 0)]; the pair
    [(year_1_forecast, months_remaining)] is returned. *)
Definition forecast_year_1 (owner_ytd_metrics monthly_run_rates : metrics_dict)
    (days_remaining_in_year_1 : Z) : metrics_dict * Q :=
  let ratio := inject_Z days_remaining_in_year_1 / avg_month_days in
  let months_remaining := if Qltb ratio 0 then 0 else ratio in
  let forecast_add := (fun v => v * months_remaining) <$> monthly_run_rates in
  (map_imap (fun k _ => Some (get0 owner_ytd_metrics k + get0 forecast_add k))
     owner_ytd_metrics, months_remaining).

(* ------------------------------------------------------------------ *)
(** ** Legacy overhead add-in amount ([business_logic.py] 298-332) *)

(** [compute_legacy_overhead_addins] on a classified ledger (the [date],
    [amount], [is_overhead] columns are present). [included_accounts] is
    the set as a list; [None] and the empty set are both [[]] (falsy, so
    no account filter). *)
Definition compute_legacy_overhead_addins (df : list FTxn) (legacy_start legacy_end : Z)
    (included_accounts : list string) : Q :=
  match df with
  | [] => 0
  | _ =>
      let mask r := date_ge (f_date r) legacy_start && date_le (f_date r) legacy_end
                    && c_is_overhead (f_row r) in
      let mask' r := match included_accounts with
                     | [] => mask r
                     | _ => mask r && existsb (String.eqb (f_account r)) included_accounts
                     end in
      net_to_positive (sum_where mask' df)
  end.

(* ------------------------------------------------------------------ *)
(** ** Token-based addback detection ([business_logic.py] 132-176) *)

Section Detect.

(** [re.search(r"\b" + re.escape(t) + r"\b", text)]: whole-word search
    (a regex builtin, not embedded here). *)
Variable word_search : string -> string -> bool.

Definition base_tokens : list string := ["xnp"; "ng"; "nathan"; "owner"; "personal"].

(** [hit]: the token occurs as a word in the lowered name or memo. *)
Definition token_hit (t : string) (a : ARow) : bool :=
  word_search t (lower (t_name (a_txn a))) || word_search t (lower (t_memo (a_txn a))).

(** One iteration of the token loop: empty tokens are skipped; hit rows
    are flagged and get [", " (if a reason exists) + "token=<t>"]
    appended to their reason. *)
Definition detect_token (out : list ARow) (t : string) : list ARow :=
  if String.eqb t "" then out
  else map (fun a =>
              if token_hit t a
              then mkARow (a_txn a) true
                     (a_reason a ++ (if String.eqb (a_reason a) "" then "" else ", ")
                      ++ "token=" ++ t)
              else a) out.

(** [detect_addbacks(df, custom_tokens)]: flags and reasons are reset,
    then the base tokens and the lowered custom tokens are applied in
    order. *)
Definition detect_addbacks (df : list Txn) (custom_tokens : option (list string))
  : list ARow :=
  let custom := match custom_tokens with None => [] | Some ts => ts end in
  let raw_tokens := (base_tokens ++ map lower custom)%list in
  fold_left detect_token raw_tokens (map (fun r => mkARow r false "") df).

End Detect.

(* ------------------------------------------------------------------ *)
(** ** Built-in rules and the rules file ([addback_rules.py] 74-121) *)

(** [default_rules()] *)
Definition default_rules : list AddbackRule :=
  [mkRule payroll_rule_name None None (Some ["payroll"]) (Some 2880) (Some 25)].

(** The JSON value of an optional list of strings / an optional float. *)
Definition json_of_list (l : option (list string)) : jval :=
  match l with None => JNull | Some xs => JList (map JStr xs) end.
Definition json_of_num (q : option Q) : jval :=
  match q with None => JNull | Some x => JNum x end.

(** The dict [rules_to_jsonable] builds for one rule. *)
Definition rule_to_jsonable (r : AddbackRule) : gmap string jval :=
  <["name" := JStr (r_name r)]>
  (<["account_contains" := json_of_list (r_account_contains r)]>
  (<["name_contains" := json_of_list (r_name_contains r)]>
  (<["memo_contains" := json_of_list (r_memo_contains r)]>
  (<["amount" := json_of_num (r_amount r)]>
  (<["amount_tolerance" := json_of_num (r_amount_tolerance r)]> ∅))))).

(** [rules_to_jsonable] *)
Definition rules_to_jsonable (rules : list AddbackRule) : list (gmap string jval) :=
  map rule_to_jsonable rules.

(** An element of the top-level JSON list of the rules file: an object,
    or any other value (skipped by [load_rules]). *)
Inductive jentry :=
| JObj (o : gmap string jval)
| JOther (v : jval).

Section RulesIO.

Variable py_str_other : jval -> string.
Variable py_float_of_string : string -> option Q.

(** The loop of [load_rules] over the parsed top-level list: non-objects
    are skipped, the first [parse_rule] exception propagates ([inl]). *)
Fixpoint load_rules_data (data : list jentry) : string + list AddbackRule :=
  match data with
  | [] => inr []
  | JOther _ :: rest => load_rules_data rest
  | JObj o :: rest =>
      match parse_rule py_str_other py_float_of_string o with
      | inl e => inl e
      | inr r =>
          match load_rules_data rest with
          | inl e => inl e
          | inr rs => inr (r :: rs)
          end
      end
  end.

End RulesIO.

(** A rule that [rules_to_jsonable] can write and [parse_rule] read back
    unchanged: a stripped, non-empty name, and text lists that are absent
    or non-empty lists of stripped, non-empty strings. *)
Definition wf_text_list (l : option (list string)) : Prop :=
  match l with
  | None => True
  | Some xs => xs <> [] /\ List.Forall (fun x => strip x = x /\ x <> "") xs
  end.

Definition wf_rule (r : AddbackRule) : Prop :=
  strip (r_name r) = r_name r /\ r_name r <> "" /\
  wf_text_list (r_account_contains r) /\ wf_text_list (r_name_contains r) /\
  wf_text_list (r_memo_contains r).

(* ------------------------------------------------------------------ *)
(** ** Reconciliation wrapper and cash / accrual P&L
       ([reconciliation.py] 260-397) *)

Record ReconSummary := mkReconSummary {
  total_matched : nat;
  total_unmatched_bank : nat;
  unmatched_bank_amount : Q;
  total_unmatched_qb : nat;
  unmatched_qb_amount : Q;
}.

(** [t["amount"].sum() if not t.empty else 0.0] *)
Definition amount_sum (rows : list LRow) : Q :=
  match rows with [] => 0 | _ => sumQ (map l_amount rows) end.

(** [reconcile_transactions(bank_df, qb_df, date_window_days)]: the
    match result and its summary. *)
Definition reconcile_transactions (bank_df qb_df : list LRow) (date_window_days : Z)
  : MatchResult * ReconSummary :=
  let res := match_qb_and_bank qb_df bank_df date_window_days in
  (res, mkReconSummary (length (matched res)) (length (unmatched_bank res))
          (amount_sum (unmatched_bank res)) (length (unmatched_qb res))
          (amount_sum (unmatched_qb res))).

Record CashPL := mkCashPL { revenue_cash : Q; expenses_cash : Q; net_cash : Q }.

(** [compute_cash_basis_pl]: rows dated in [[start_date, end_date]]
    ([Series.between], inclusive; [NaT] is outside). *)
Definition compute_cash_basis_pl (bank_df : list LRow) (start_date end_date : Z) : CashPL :=
  let b := List.filter (fun r => date_ge (l_date r) start_date
                                 && date_le (l_date r) end_date) bank_df in
  let inflow := sumQ (map l_amount (List.filter (fun r => Qltb 0 (l_amount r)) b)) in
  let outflow := - sumQ (map l_amount (List.filter (fun r => Qltb (l_amount r) 0) b)) in
  mkCashPL inflow outflow (inflow - outflow).

Record AccrualPL := mkAccrualPL {
  revenue_accrual : Q; expenses_accrual : Q; net_accrual : Q }.

(** [compute_accrual_pl_from_qb] on ledger rows ([date], [amount],
    [account_type]); the [str.contains] patterns carry no regex
    metacharacters, so they are substring tests. *)
Definition compute_accrual_pl_from_qb (qb_df : list Txn) (start_date end_date : Z)
  : AccrualPL :=
  let q := List.filter (fun r => date_ge (t_date r) start_date
                                 && date_le (t_date r) end_date) qb_df in
  let income_amount :=
    sumQ (map t_amount (List.filter (fun r => contains (atype r) "income") q)) in
  let revenue_accrual := - income_amount in
  let cogs_raw :=
    sumQ (map t_amount (List.filter (fun r => contains (atype r) "cost of goods sold") q)) in
  let cogs := Qabs cogs_raw in
  let exp_raw :=
    sumQ (map t_amount (List.filter (fun r => contains (atype r) "expense"
                                              && negb (contains (atype r) "income")) q)) in
  let expenses_other := Qabs exp_raw in
  let expenses_total := cogs + expenses_other in
  mkAccrualPL revenue_accrual expenses_total (revenue_accrual - expenses_total).

Record CashAccrualSummary := mkCashAccrualSummary {
  cash : CashPL; accrual : AccrualPL;
  revenue_diff : Q; expenses_diff : Q; net_diff : Q }.

(** [compute_cash_vs_accrual_summary] *)
Definition compute_cash_vs_accrual_summary (qb_df : list Txn) (bank_df : list LRow)
    (start_date end_date : Z) : CashAccrualSummary :=
  let c := compute_cash_basis_pl bank_df start_date end_date in
  let a := compute_accrual_pl_from_qb qb_df start_date end_date in
  mkCashAccrualSummary c a
    (revenue_accrual a - revenue_cash c)
    (expenses_accrual a - expenses_cash c)
    (net_accrual a - net_cash c).

(* ------------------------------------------------------------------ *)
(** ** Monthly KPI rollup ([kpi_lab.py] 34-196) *)

(** The columns [compute_monthly_kpis] reads. Dates here are day numbers
    counted from 1970-01-01 (the [datetime64] epoch); [NaT] is [None].
    The [date], [amount] and [sde_addback_flag] columns are present (the
    errors raised on a frame lacking one of them are not modelled). *)
Record KTxn := mkKTxn {
  kt_date : option Z;
  kt_classification : string;
  kt_amount : Q;
  kt_is_revenue : bool;
  kt_flag : bool;
}.

(** Proleptic Gregorian (year, month) of a day number
    ([dt.to_period("M")]), by the days-to-civil conversion of H. Hinnant. *)
Definition civil_year_month (days : Z) : Z * Z :=
  let z := (days + 719468)%Z in
  let era := (z / 146097)%Z in
  let doe := (z - era * 146097)%Z in
  let yoe := ((doe - doe / 1460 + doe / 36524 - doe / 146096) / 365)%Z in
  let doy := (doe - (365 * yoe + yoe / 4 - yoe / 100))%Z in
  let mp := ((5 * doy + 2) / 153)%Z in
  let m := if (mp <? 10)%Z then (mp + 3)%Z else (mp - 9)%Z in
  ((yoe + era * 400 + (if (m <=? 2)%Z then 1 else 0))%Z, m).

(** A month period as [12 * year + (month - 1)]. *)
Definition month_of (days : Z) : Z :=
  let (y, m) := civil_year_month days in (12 * y + (m - 1))%Z.

Definition has_date (r : KTxn) : bool :=
  match kt_date r with Some _ => true | None => false end.

(** The [month] column (only read on dated rows). *)
Definition kmonth (r : KTxn) : Z :=
  match kt_date r with Some z => month_of z | None => 0%Z end.

(** [amount_kpi]: 0 on revenue rows dated before the owner start. *)
Definition amount_kpi (owner_start : Z) (r : KTxn) : Q :=
  if kt_is_revenue r && date_lt (kt_date r) owner_start then 0 else kt_amount r.

(** A pivoted [*_raw] cell: the sum of [amount_kpi] over the month's rows
    whose classification is one of those renamed to the column. *)
Definition raw_of (owner_start : Z) (d : list KTxn) (m : Z) (classes : list string) : Q :=
  sumQ (map (amount_kpi owner_start)
              (List.filter (fun r => (kmonth r =? m)%Z
                                     && existsb (String.eqb (kt_classification r)) classes) d)).

Definition has_class (d : list KTxn) (c : string) : bool :=
  existsb (fun r => String.eqb (kt_classification r) c) d.

(** The per-month P&L columns. *)
Record PLRow := mkPLRow {
  pl_month : Z; pl_revenue : Q; pl_cogs : Q; pl_overhead : Q; pl_other_expense : Q;
  pl_gross_profit : Q; pl_net_profit : Q; pl_addbacks : Q; pl_sde : Q }.

(** One output row ([month_str], a display rendering of [month], is not
    modelled). A [None] ratio is a missing value ([None] / [NaN]). *)
Record KpiRow := mkKpiRow {
  kr_pl : PLRow;
  kr_gross_margin_pct : option Q; kr_net_margin_pct : option Q;
  kr_sde_margin_pct : option Q; kr_overhead_pct : option Q; kr_cogs_pct : option Q;
  kr_revenue_mom_delta : option Q; kr_revenue_mom_pct : option Q;
  kr_net_profit_mom_delta : option Q; kr_net_profit_mom_pct : option Q;
  kr_sde_mom_delta : option Q; kr_sde_mom_pct : option Q }.

(** [_safe_divide] on one row: [None] when the denominator is 0. *)
Definition safe_divide (n d : Q) : option Q :=
  if Qeq_bool d 0 then None else Some (n / d).

(** One row of the MoM loop: [prev] is the previous row's value ([NaN]
    on the first row, where both the delta and [NaN / NaN] are missing). *)
Definition mom (prev : option Q) (cur : Q) : option Q * option Q :=
  match prev with
  | None => (None, None)
  | Some p => (Some (cur - p), if Qeq_bool p 0 then None else Some ((cur - p) / p))
  end.

Definition kpi_row (prev : option PLRow) (p : PLRow) : KpiRow :=
  let rev := pl_revenue p in
  let r := mom (option_map pl_revenue prev) (pl_revenue p) in
  let n := mom (option_map pl_net_profit prev) (pl_net_profit p) in
  let s := mom (option_map pl_sde prev) (pl_sde p) in
  mkKpiRow p
    (safe_divide (pl_gross_profit p) rev) (safe_divide (pl_net_profit p) rev)
    (safe_divide (pl_sde p) rev) (safe_divide (pl_overhead p) rev)
    (safe_divide (pl_cogs p) rev)
    (fst r) (snd r) (fst n) (snd n) (fst s) (snd s).

(** Margins and [shift(1)]-based MoM columns over the sorted months. *)
Fixpoint with_mom (prev : option PLRow) (ps : list PLRow) : list KpiRow :=
  match ps with
  | [] => []
  | p :: rest => kpi_row prev p :: with_mom (Some p) rest
  end.

(** [compute_monthly_kpis(df, owner_revenue_start)]. [inl] is a raised
    exception: when both "Other Expense" and "Other" occur, the rename
    yields two [other_expense_raw] columns and assigning the resulting
    two-column frame to [pivot["other_expense"]] raises. *)
Definition compute_monthly_kpis (df : list KTxn) (owner_revenue_start : Z)
  : string + list KpiRow :=
  match df with
  | [] => inr []
  | _ =>
      let d := List.filter has_date df in
      match d with
      | [] => inr []
      | _ =>
          if has_class d "Other Expense" && has_class d "Other" then inl "ValueError"
          else
            let pl m :=
              let rev := net_to_positive (raw_of owner_revenue_start d m ["Revenue"]) in
              let cg := net_to_positive (raw_of owner_revenue_start d m ["COGS"]) in
              let ov := net_to_positive (raw_of owner_revenue_start d m ["Overhead"]) in
              let ox := net_to_positive
                          (raw_of owner_revenue_start d m ["Other Expense"; "Other"]) in
              let gp := rev - cg in
              let np := gp - ov - ox in
              let ab := monthly_addbacks
                          (map (fun r => mkKRow (kmonth r) (kt_amount r) (kt_flag r)) d) m in
              mkPLRow m rev cg ov ox gp np ab (np + ab) in
            inr (with_mom None (map pl (group_keys (map kmonth d))))
      end
  end.

(* ------------------------------------------------------------------ *)
(** ** Ledger normalisation for the matcher ([reconciliation.py] 25-65) *)

(** A ledger row as [normalize_qb_ledger_for_bank] receives it: its index
    label, [date] ([None] for [NaT]), [amount] after
    [pd.to_numeric(errors="coerce")] ([None] when not numeric), and the
    [name], [memo] and [account] texts ([""] when the column is missing).
    The [date] and [amount] columns are present (the [ValueError] branch
    for a missing one is not modelled). *)
Record QbRow := mkQbRow {
  qr_label : Z; qr_date : option Z; qr_amount : option Q;
  qr_name : string; qr_memo : string; qr_account : string }.

(** [str.strip(" |")] *)
Definition is_space_or_bar (c : ascii) : bool := Ascii.eqb c " " || Ascii.eqb c "|".

Fixpoint lstrip_chars (p : ascii -> bool) (s : string) : string :=
  match s with
  | EmptyString => EmptyString
  | String c t => if p c then lstrip_chars p t else s
  end.

Fixpoint rstrip_chars (p : ascii -> bool) (s : string) : string :=
  match s with
  | EmptyString => EmptyString
  | String c t =>
      let t' := rstrip_chars p t in
      match t' with
      | EmptyString => if p c then EmptyString else String c EmptyString
      | _ => String c t'
      end
  end.

Definition strip_chars (p : ascii -> bool) (s : string) : string :=
  rstrip_chars p (lstrip_chars p s).

(** One row of the result: [date], [amount], [description], [account],
    [source]. *)
Record QbNorm := mkQbNorm {
  qn_row : LRow; qn_description : string; qn_account : string; qn_source : string }.

(** [normalize_qb_ledger_for_bank]: rows without a date are dropped, a
    non-numeric amount becomes 0.0, rows of amount 0 are dropped; the
    surviving rows keep their index label. *)
Definition normalize_qb_ledger_for_bank (df_qb : list QbRow) : list QbNorm :=
  let amt r := match qr_amount r with Some a => a | None => 0 end in
  let qb := List.filter (fun r => match qr_date r with Some _ => true | None => false end)
              df_qb in
  let qb := List.filter (fun r => negb (Qeq_bool (amt r) 0)) qb in
  map (fun r => mkQbNorm (mkLRow (qr_label r) (qr_date r) (amt r))
                  (strip_chars is_space_or_bar (qr_name r ++ " | " ++ qr_memo r))
                  (qr_account r) "qb") qb.

(* ================================================================== *)
(** * Properties *)

(* ------------------------------------------------------------------ *)
(** ** Account prefix extractors *)

Lemma leading_digits_head (u : string) :
  leading_digits u <> EmptyString ->
  exists c t, u = String c t /\ is_digit c = true.
Proof.
  destruct u as [|c t]; simpl; [congruence|].
  destruct (is_digit c) eqn:E; [|congruence]. intros _. eauto.
Qed.

Lemma rstrip_head (c : ascii) (t : string) :
  is_space c = false -> exists t', rstrip (String c t) = String c t'.
Proof.
  intros Hc. simpl. destruct (rstrip t) as [|a u].
  - rewrite Hc. by exists EmptyString.
  - by exists (String a u).
Qed.

Lemma digit_not_space (c : ascii) : is_digit c = true -> is_space c = false.
Proof.
  unfold is_digit, is_space. intros H.
  apply andb_true_iff in H as [H1 H2]. apply Nat.leb_le in H1, H2.
  apply orb_false_iff. split; apply andb_false_iff; right; apply Nat.leb_gt; lia.
Qed.

Lemma lower_digit (c : ascii) : is_digit c = true -> lower_char c = c.
Proof.
  unfold is_digit, lower_char. intros H.
  apply andb_true_iff in H as [H1 H2]. apply Nat.leb_le in H1, H2.
  replace ((65 <=? nat_of_ascii c) && (nat_of_ascii c <=? 90))%nat with false; [done|].
  symmetry. apply andb_false_iff. left. apply Nat.leb_gt. lia.
Qed.

(** Once the text starts (after blanks) with a digit, neither the blank
    test nor the ["nan"] test of [extract_account_prefix] fires. *)
Lemma extract_account_prefix_digits (s : string) :
  extract_account_prefix (Some s) =
  match leading_digits (lstrip s) with EmptyString => None | ds => Some ds end.
Proof.
  unfold extract_account_prefix, strip.
  destruct (leading_digits (lstrip s)) eqn:Eld; [destruct (_ || _); done|].
  destruct (leading_digits_head (lstrip s)) as (c & t & Hu & Hd); [rewrite Eld; done|].
  destruct (rstrip_head c t (digit_not_space c Hd)) as [t' Ht'].
  rewrite <- Hu in Ht'. rewrite Ht'. simpl. rewrite (lower_digit c Hd).
  destruct (Ascii.eqb c "n") eqn:E; [|reflexivity].
  apply Ascii.eqb_eq in E. subst c. discriminate Hd.
Qed.

Lemma prefix_agree_on_text (u : string) :
  (match leading_digits u with EmptyString => None | ds => Some ds end) =
  (match u with
   | String a (String b (String c _)) =>
       if is_digit a && is_digit b && is_digit c
       then Some (String a (String b (String c EmptyString))) else None
   | _ => None
   end) <->
  String.length (leading_digits u) = 0%nat \/ String.length (leading_digits u) = 3%nat.
Proof.
  destruct u as [|a [|b [|c r]]]; simpl.
  - split; [left; done | done].
  - destruct (is_digit a); simpl; split; intros H; try done; try lia;
      destruct H; discriminate.
  - destruct (is_digit a), (is_digit b); simpl; split; intros H; try done; try lia;
      destruct H; discriminate.
  - destruct (is_digit a), (is_digit b), (is_digit c); simpl;
      split; intros H; try done; try lia; try (destruct H; discriminate).
    + injection H as H. rewrite H. right. done.
    + destruct H as [H|H]; [lia|].
      destruct (leading_digits r); [done | simpl in H; lia].
Qed.

(** C10 (amended): the classifier's extractor ([extract_account_prefix],
    the whole leading digit run) and the legacy job-cost extractor
    ([account_code_prefix], exactly three leading digits) return the same
    value on an account text exactly when its leading digit run (after
    blanks) is empty or has exactly three digits. *)
Theorem prefix_extractors_agree_iff (s : string) :
  extract_account_prefix (Some s) = account_code_prefix (Some s) <->
  String.length (leading_digits (lstrip s)) = 0%nat \/
  String.length (leading_digits (lstrip s)) = 3%nat.
Proof.
  rewrite extract_account_prefix_digits. unfold account_code_prefix.
  apply prefix_agree_on_text.
Qed.

(** C10 (counterexample): on ["7051 · Truck"] the classifier sees prefix
    ["7051"] (not a job-cost prefix) while the legacy carve-out sees ["705"]
    (a job-cost prefix); on ["70 · Misc"] the classifier sees ["70"] and the
    carve-out sees none. *)
Lemma prefix_extractors_disagree_cex :
  extract_account_prefix (Some "7051 Truck") = Some "7051" /\
  account_code_prefix (Some "7051 Truck") = Some "705" /\
  prefix_in (extract_account_prefix (Some "7051 Truck")) default_cogs_prefixes = false /\
  prefix_in (account_code_prefix (Some "7051 Truck")) default_cogs_prefixes = true /\
  extract_account_prefix (Some "70 Misc") = Some "70" /\
  account_code_prefix (Some "70 Misc") = None.
Proof. vm_compute. repeat split. Qed.

(* ------------------------------------------------------------------ *)
(** ** Classifier *)

Lemma lower_empty (s : string) : lower s = EmptyString <-> s = EmptyString.
Proof. destruct s; simpl; split; intros H; done. Qed.

Lemma contains_empty_text (p : string) :
  p <> EmptyString -> contains EmptyString p = false.
Proof. destruct p; simpl; [congruence | done]. Qed.

(** The classifier's per-row flags, read off the source masks. *)
Lemma classify_row_flags (ps : list string) (r : Txn) :
  let c := classify_row ps r in
  (count_true (flags c) <= 1)%nat /\
  c_is_revenue c = revenue_mask r /\
  c_is_other_expense c = other_exp_mask r && negb (revenue_mask r) /\
  c_is_cogs c = expense_like r && negb (revenue_mask r) && negb (other_exp_mask r)
                && (is_explicit_cogs r
                    || prefix_in (extract_account_prefix (Some (t_account r))) ps) /\
  c_is_overhead c = expense_like r && negb (revenue_mask r) && negb (other_exp_mask r)
                    && negb (is_explicit_cogs r
                    || prefix_in (extract_account_prefix (Some (t_account r))) ps).
Proof.
  cbn zeta. unfold classify_row, flags, count_true. simpl.
  destruct (revenue_mask r), (other_exp_mask r), (expense_like r),
    (is_explicit_cogs r), (prefix_in _ ps); simpl; repeat split; lia.
Qed.

(** C6: in every output row of [classify_transactions] at most one of
    [is_revenue]/[is_cogs]/[is_overhead]/[is_other_expense] is set, and the
    flags follow the priority Revenue, then OtherExpense, then COGS, then
    Overhead (each later flag requires every earlier mask to be off). *)
Theorem classify_flags_exclusive (df : list Txn) (cogs_prefixes : option (list string)) :
  let ps := match cogs_prefixes with None => default_cogs_prefixes | Some p => p end in
  Forall (fun c =>
    let r := c_txn c in
    (count_true (flags c) <= 1)%nat /\
    c_is_revenue c = revenue_mask r /\
    c_is_other_expense c = other_exp_mask r && negb (revenue_mask r) /\
    c_is_cogs c = expense_like r && negb (revenue_mask r) && negb (other_exp_mask r)
                  && (is_explicit_cogs r
                      || prefix_in (extract_account_prefix (Some (t_account r))) ps) /\
    c_is_overhead c = expense_like r && negb (revenue_mask r) && negb (other_exp_mask r)
                      && negb (is_explicit_cogs r
                      || prefix_in (extract_account_prefix (Some (t_account r))) ps))
    (classify_transactions df cogs_prefixes).
Proof.
  intros ps. unfold classify_transactions. fold ps.
  apply List.Forall_forall. intros c Hin.
  apply in_map_iff in Hin as [r [<- _]].
  apply (classify_row_flags ps r).
Qed.

Lemma classify_row_unclassified (ps : list string) (r : Txn) :
  (c_classification (classify_row ps r) = "Unclassified" <->
   t_account_type r = "" /\ contains (account_lower r) "income" = false) /\
  (t_account_type r <> "" -> revenue_mask r = false -> other_exp_mask r = false ->
   expense_like r = false -> c_classification (classify_row ps r) = "Other").
Proof.
  unfold classify_row. cbv zeta. cbn [c_classification].
  destruct (String.eqb (atype r) "") eqn:Ea.
  - apply String.eqb_eq in Ea.
    assert (Ht : t_account_type r = "") by (apply lower_empty; exact Ea).
    assert (Ho : other_exp_mask r = false) by (unfold other_exp_mask; rewrite Ea; done).
    assert (He : expense_like r = false) by (unfold expense_like; rewrite Ea; done).
    assert (Hr : revenue_mask r = contains (account_lower r) "income")
      by (unfold revenue_mask; rewrite Ea; done).
    rewrite Ho, He, Hr.
    destruct (contains (account_lower r) "income"); simpl; split.
    + split; [discriminate | intros [_ H]; discriminate].
    + intros H; congruence.
    + split; [done | done].
    + intros H; congruence.
  - assert (Hn : t_account_type r <> "").
    { intros Ht. unfold atype in Ea. rewrite Ht in Ea. discriminate. }
    destruct (revenue_mask r), (other_exp_mask r), (expense_like r),
      (is_explicit_cogs r), (prefix_in (extract_account_prefix (Some (t_account r))) ps);
      simpl; split;
      try (split; [discriminate | intros [H _]; contradiction]);
      try (intros _ H1 H2 H3; discriminate); try done.
Qed.

(** C4 (amended): [classify_transactions] labels a row "Unclassified"
    exactly when its [account_type] is empty and its account text does not
    contain "income" (such an account text makes it Revenue); a row with a
    non-empty [account_type] that matches none of the recognised categories
    is labelled "Other", not "Unclassified" (and not "Overhead"). *)
Theorem classify_unclassified_iff (df : list Txn) (cogs_prefixes : option (list string)) :
  Forall (fun c =>
    let r := c_txn c in
    (c_classification c = "Unclassified" <->
     t_account_type r = "" /\ contains (lower (t_account r)) "income" = false) /\
    (t_account_type r <> "" -> revenue_mask r = false -> other_exp_mask r = false ->
     expense_like r = false -> c_classification c = "Other"))
    (classify_transactions df cogs_prefixes).
Proof.
  unfold classify_transactions. apply List.Forall_forall. intros c Hin.
  apply in_map_iff in Hin as [r [<- _]].
  apply classify_row_unclassified.
Qed.

(** C4 (counterexample): an unrecognised non-empty account type ("Bank")
    is classified "Other", and an empty account type with an "Interest
    Income" account is Revenue. *)
Lemma classify_unrecognised_cex :
  map c_classification
    (classify_transactions
       [mkTxn (Some 0%Z) "Checking" "Bank" "" "" 10;
        mkTxn (Some 0%Z) "Interest Income" "" "" "" 10] None) = ["Other"; "Revenue"].
Proof. vm_compute. reflexivity. Qed.

(* ------------------------------------------------------------------ *)
(** ** Legacy overhead add-in *)

(** The base snapshot of the scenario, with no other keys. *)
Definition addin_base : metrics_dict :=
  <["overhead" := 200]> (<["net_profit" := 650]> (<["sde" := 660]>
  (<["addbacks" := 10]> ∅))).

(** The base snapshot of [test_apply_legacy_overhead_addins_adjusts_net_and_sde]. *)
Definition addin_test_base : metrics_dict :=
  <["revenue" := 1000]> (<["cogs" := 100]> (<["other_expense" := 50]>
  (<["gross_profit" := 900]> addin_base))).

(** C1 (counterexample): with only the four keys present, the add-in of 75
    recomputes [net_profit] from the missing (zero) revenue: it returns
    [net_profit = -275] and [sde = -265], not 575 and 585. *)
Lemma legacy_addin_four_keys_cex :
  let out := apply_legacy_overhead_addins (Some addin_base) 75 in
  get0 out "overhead" == 275 /\ get0 out "net_profit" == -275 /\
  get0 out "sde" == -265 /\ ~ get0 out "net_profit" == 575.
Proof.
  vm_compute. split; [reflexivity|]. split; [reflexivity|].
  split; [reflexivity|]. discriminate.
Qed.

(** C1 (amended): a non-zero add-in [t] sets [overhead] to [overhead + t],
    recomputes [net_profit = revenue - (cogs + overhead + t + other_expense)]
    and [sde = net_profit + addbacks] from the snapshot's keys (a missing key
    reads as 0) and leaves every other key but [gross_profit] and
    [legacy_overhead_included] as it was; so the four-key base snapshot with
    75 gives 275 / -275 / -265 and the same snapshot with revenue 1000,
    cogs 100, other_expense 50 gives 275 / 575 / 585. An add-in equal to 0
    returns the input unchanged. *)
Theorem legacy_addin_recomputes :
  (forall (m : metrics_dict) (t : Q), ~ t == 0 ->
     let out := apply_legacy_overhead_addins (Some m) t in
     let np := get0 m "revenue"
               - (get0 m "cogs" + (get0 m "overhead" + t) + get0 m "other_expense") in
     out !! "overhead" = Some (get0 m "overhead" + t) /\
     out !! "net_profit" = Some np /\
     out !! "sde" = Some (np + get0 m "addbacks") /\
     (forall k, k <> "overhead" -> k <> "net_profit" -> k <> "sde" ->
        k <> "gross_profit" -> k <> "legacy_overhead_included" -> out !! k = m !! k)) /\
  (forall (m : metrics_dict) (t : Q), t == 0 -> apply_legacy_overhead_addins (Some m) t = m) /\
  (let out := apply_legacy_overhead_addins (Some addin_base) 75 in
   get0 out "overhead" == 275 /\ get0 out "net_profit" == -275 /\ get0 out "sde" == -265) /\
  (let out := apply_legacy_overhead_addins (Some addin_test_base) 75 in
   get0 out "overhead" == 275 /\ get0 out "net_profit" == 575 /\ get0 out "sde" == 585).
Proof.
  split; [|split; [|split]].
  - intros m t Ht. cbv zeta. unfold apply_legacy_overhead_addins.
    replace (Qeq_bool t 0) with false
      by (symmetry; apply not_true_iff_false; intros H; apply Ht, Qeq_bool_iff, H).
    repeat split.
    + rewrite !lookup_insert_ne by done. apply lookup_insert_eq.
    + rewrite !lookup_insert_ne by done. apply lookup_insert_eq.
    + rewrite lookup_insert_ne by done. apply lookup_insert_eq.
    + intros k H1 H2 H3 H4 H5. rewrite !lookup_insert_ne by congruence. done.
  - intros m t Ht. unfold apply_legacy_overhead_addins.
    replace (Qeq_bool t 0) with true by (symmetry; apply Qeq_bool_iff, Ht). done.
  - vm_compute. repeat split.
  - vm_compute. repeat split.
Qed.

(** Witness of [legacy_addin_recomputes] at the test's base snapshot. *)
Lemma legacy_addin_recomputes_witness :
  ~ (75 == 0) /\
  apply_legacy_overhead_addins (Some addin_test_base) 75 !! "overhead"
  = Some (get0 addin_test_base "overhead" + 75).
Proof.
  split; [discriminate|].
  destruct legacy_addin_recomputes as [H _].
  apply (H addin_test_base 75). discriminate.
Defined.

(* ------------------------------------------------------------------ *)
(** ** Run rates *)

Lemma run_rate_ratio_ge1 (d : Z) :
  Qle_bool 1 (inject_Z d / avg_month_days) = (31 <=? d)%Z.
Proof.
  destruct (Qle_bool 1 _) eqn:E; symmetry.
  - apply Qle_bool_iff in E. apply Z.leb_le.
    unfold Qle, avg_month_days, Qdiv, Qmult, Qinv in E. simpl in E. lia.
  - apply Z.leb_gt. apply not_true_iff_false in E.
    destruct (Z.le_gt_cases 31 d) as [H|H]; [|lia].
    exfalso. apply E, Qle_bool_iff.
    unfold Qle, avg_month_days, Qdiv, Qmult, Qinv. simpl. lia.
Qed.

(** C2 (counterexample): over a 10-day window [calculate_run_rates] returns
    revenue 100 unchanged ([months] is floored at 1), not
    [100 / 10 * 30.4375 = 304.375]. *)
Lemma run_rates_short_window_cex :
  let out := calculate_run_rates {[ "revenue" := 100 ]} 10 in
  get0 out "revenue" == 100 /\ ~ get0 out "revenue" == 100 / 10 * avg_month_days.
Proof. vm_compute. split; [reflexivity | discriminate]. Qed.

(** C2 (amended): for a positive day count [d], [calculate_run_rates] keeps
    the keys and maps every value [v] to [v / d * 30.4375] when
    [d >= 31] (so that [d / 30.4375 >= 1]) and leaves it unchanged when
    [d <= 30] ([months = max(d / 30.4375, 1.0)] is floored at one month);
    the same rule applies to every key. *)
Theorem run_rates_per_key (m : metrics_dict) (d : Z) (Hd : (0 < d)%Z) :
  forall k,
    (calculate_run_rates m d !! k = None <-> m !! k = None) /\
    (forall v, m !! k = Some v ->
       exists w, calculate_run_rates m d !! k = Some w /\
         ((31 <= d)%Z -> w == v / inject_Z d * avg_month_days) /\
         ((d <= 30)%Z -> w == v)).
Proof.
  intros k. unfold calculate_run_rates. rewrite run_rate_ratio_ge1.
  rewrite lookup_fmap. split.
  - destruct (m !! k); simpl; split; intros H; done.
  - intros v Hv. rewrite Hv. simpl. eexists; split; [reflexivity|]. split.
    + intros H31. replace (31 <=? d)%Z with true by (symmetry; apply Z.leb_le; lia).
      assert (Hz : ~ inject_Z d == 0).
      { unfold Qeq. simpl. lia. }
      unfold avg_month_days. field. exact Hz.
    + intros H30. replace (31 <=? d)%Z with false by (symmetry; apply Z.leb_gt; lia).
      field.
Qed.

(** Witness of [run_rates_per_key] on a 61-day window. *)
Lemma run_rates_per_key_witness :
  (0 < 61)%Z /\
  exists w, calculate_run_rates {[ "revenue" := 2000 ]} 61 !! "revenue" = Some w /\
            w == 2000 / 61 * avg_month_days.
Proof.
  split; [lia|].
  destruct (proj2 (run_rates_per_key {[ "revenue" := 2000 ]} 61 ltac:(lia) "revenue")
              2000 (lookup_singleton_eq _ _)) as [w [Hw [H31 _]]].
  exists w. split; [exact Hw | apply H31; lia].
Defined.

(* ------------------------------------------------------------------ *)
(** ** Owner metrics on the fixture of [test_get_owner_metrics_owner_revenue_start] *)

(** Day numbers count from 2025-07-01 (day 0): 2025-08-01 is day 31 and
    2025-08-31 is day 61. *)
Definition owner_fixture_ledger : list Txn :=
  [ mkTxn (Some 14%Z) "Sales" "Income" "Cust A" "Inv 1" (-1000);
    mkTxn (Some 19%Z) "Materials" "Cost of Goods Sold" "Vendor A" "Materials" 200;
    mkTxn (Some 35%Z) "Sales" "Income" "Cust B" "Inv 2" (-2000);
    mkTxn (Some 40%Z) "Rent" "Expense" "Landlord" "Rent" 500;
    mkTxn (Some 45%Z) "Meals" "Expense" "Rest A" "Lunch with Nathan" 100;
    mkTxn (Some 50%Z) "Other" "Other Expense" "Vendor B" "xnp materials" 300 ].

(** The classified fixture with the addback flags of the last two rows (the
    rows [detect_addbacks] flags through the tokens "nathan" and "xnp"). *)
Definition owner_fixture : list FTxn :=
  map (fun p => mkFTxn (fst p) (snd p))
    (combine (classify_transactions owner_fixture_ledger None)
             [false; false; false; false; true; true]).

(** C3: on a ledger with July COGS 200, August revenue -2000, August
    overhead 500 and 100, August other expense 300 and the August rows of
    100 and 300 flagged as addbacks, [get_owner_metrics] (owner period
    2025-07-01 .. 2025-08-31, revenue from 2025-08-01) returns revenue 2000,
    cogs 0, legacy_cogs 200, overhead 600, other_expense 300, net_profit
    1100, addbacks 400 and sde 1500. *)
Theorem owner_metrics_fixture :
  let m := get_owner_metrics owner_fixture 0 61 31 [] true None in
  o_revenue m == 2000 /\ o_cogs m == 0 /\ o_legacy_cogs m == 200 /\
  o_overhead m == 600 /\ o_other_expense m == 300 /\ o_net_profit m == 1100 /\
  o_addbacks m == 400 /\ o_sde m == 1500.
Proof. vm_compute. repeat split. Qed.

(* ------------------------------------------------------------------ *)
(** ** Addback magnitudes: period, owner and monthly KPI aggregations *)

Lemma insert_key_In (m x : Z) (ks : list Z) :
  In x (insert_key m ks) <-> m = x \/ In x ks.
Proof.
  induction ks as [|k ks IH]; simpl; [tauto|].
  destruct (m =? k)%Z eqn:E1.
  - apply Z.eqb_eq in E1. subst k. simpl. tauto.
  - destruct (m <? k)%Z; simpl; [tauto|]. rewrite IH. tauto.
Qed.

Lemma group_keys_In (x : Z) (ms : list Z) : In x (group_keys ms) <-> In x ms.
Proof.
  induction ms as [|m ms IH]; simpl; [tauto|].
  rewrite insert_key_In, IH. tauto.
Qed.

Lemma find_keyed (f : Z -> Q) (m : Z) (ks : list Z) :
  find (fun p => (fst p =? m)%Z) (map (fun k => (k, f k)) ks) =
  if existsb (Z.eqb m) ks then Some (m, f m) else None.
Proof.
  induction ks as [|k ks IH]; simpl; [done|].
  destruct (k =? m)%Z eqn:E.
  - apply Z.eqb_eq in E. subst k. rewrite Z.eqb_refl. done.
  - rewrite Z.eqb_sym, E. exact IH.
Qed.

Lemma sumQ_nil_filter (f : KRow -> Q) (p : KRow -> bool) (l : list KRow) :
  (forall r, In r l -> p r = false) -> sumQ (map f (List.filter p l)) = 0.
Proof.
  intros H. replace (List.filter p l) with (@nil KRow); [done|].
  induction l as [|a l IH]; simpl; [done|].
  rewrite (H a (or_introl eq_refl)). apply IH. intros r Hr. apply H. right. exact Hr.
Qed.

(** [compute_monthly_kpis]' [addbacks] for a month is the sum of the
    absolute amounts of that month's flagged rows. *)
Lemma monthly_addbacks_abs_sum (d : list KRow) (m : Z) :
  monthly_addbacks d m =
  sumQ (map (fun r => Qabs (k_amount r))
          (List.filter (fun r => (k_month r =? m)%Z) (List.filter k_flag d))).
Proof.
  unfold monthly_addbacks, addbacks_by_month.
  destruct (List.filter k_flag d) as [|r0 rs] eqn:Es; [done|].
  rewrite <- Es. rewrite find_keyed.
  destruct (existsb (Z.eqb m) (group_keys (map k_month (List.filter k_flag d)))) eqn:Ex;
    [done|].
  symmetry. apply sumQ_nil_filter. intros r Hr.
  apply Z.eqb_neq. intros Hm. subst m.
  assert (Hin : In (k_month r) (group_keys (map k_month (List.filter k_flag d)))).
  { apply group_keys_In, in_map, Hr. }
  apply not_true_iff_false in Ex. apply Ex, existsb_exists.
  exists (k_month r). split; [exact Hin | apply Z.eqb_refl].
Qed.

(** C7 (counterexample): a month with flagged rows of 100 and -40 has
    period addbacks 100 (positive rows only) but KPI-rollup addbacks 140
    (sum of magnitudes). *)
Lemma monthly_addbacks_abs_cex :
  let rows := [mkTxn (Some 3%Z) "Meals" "Expense" "Owner" "" 100;
               mkTxn (Some 4%Z) "Meals" "Expense" "Owner" "refund" (-40)] in
  let period := map (fun r => mkFTxn (classify_row default_cogs_prefixes r) true) rows in
  addbacks (get_period_metrics period) == 100 /\
  monthly_addbacks [mkKRow 1 100 true; mkKRow 1 (-40) true] 1 == 140 /\
  ~ monthly_addbacks [mkKRow 1 100 true; mkKRow 1 (-40) true] 1
    == addbacks_of [100; -40].
Proof. vm_compute. split; [reflexivity|]. split; [reflexivity | discriminate]. Qed.

(** C7 (amended): period metrics and owner metrics report the addbacks of
    their (window's) addback-flagged rows by the sign preference: the sum of
    the positive amounts if any amount is positive, else the negated sum of
    the negative amounts. The per-month KPI rollup instead reports, for each
    month, the sum of the absolute amounts of all the month's
    addback-flagged rows. *)
Theorem addbacks_by_aggregation :
  (forall amounts : list Q,
     addbacks_of amounts =
     if existsb (fun a => Qltb 0 a) amounts
     then sumQ (List.filter (fun a => Qltb 0 a) amounts)
     else - sumQ (List.filter (fun a => Qltb a 0) amounts)) /\
  (forall df : list FTxn,
     addbacks (get_period_metrics df) = addbacks_of (map f_amount (List.filter f_addback df))) /\
  (forall (df : list FTxn) (ps cd rs : Z) (ov : list string) (ex : bool)
          (jp : option (list string)),
     o_addbacks (get_owner_metrics df ps cd rs ov ex jp) =
     addbacks_of (map f_amount
       (List.filter (fun r => f_addback r || existsb (String.eqb (f_account r)) ov)
          (List.filter (fun r => date_ge (f_date r) ps && date_le (f_date r) cd) df)))) /\
  (forall (d : list KRow) (m : Z),
     monthly_addbacks d m =
     sumQ (map (fun r => Qabs (k_amount r))
             (List.filter (fun r => (k_month r =? m)%Z) (List.filter k_flag d)))).
Proof.
  split; [|split; [|split]].
  - reflexivity.
  - reflexivity.
  - reflexivity.
  - apply monthly_addbacks_abs_sum.
Qed.

(* ------------------------------------------------------------------ *)
(** ** Rules without predicates *)

(** A rule with no text predicate, no amount and not the payroll name. *)
Definition no_predicates (rule : AddbackRule) : Prop :=
  r_account_contains rule = None /\ r_name_contains rule = None /\
  r_memo_contains rule = None /\ r_amount rule = None /\
  r_name rule <> payroll_rule_name.

Lemma rule_mask_no_predicates (regex_search : string -> string -> bool)
    (payroll_start : Z) (rule : AddbackRule) (r : Txn) :
  no_predicates rule -> rule_mask regex_search payroll_start rule r = true.
Proof.
  intros (H1 & H2 & H3 & H4 & H5). unfold rule_mask.
  rewrite H1, H2, H3, H4. simpl.
  replace (String.eqb (r_name rule) payroll_rule_name) with false; [done|].
  symmetry. apply String.eqb_neq, H5.
Qed.

Lemma apply_rule_no_predicates (regex_search : string -> string -> bool)
    (payroll_start : Z) (rule : AddbackRule) (df : list ARow) :
  no_predicates rule ->
  map a_flag (apply_rule regex_search payroll_start df rule) = map (fun _ => true) df.
Proof.
  intros Hr. unfold apply_rule.
  destruct df as [|a rest]; [done|].
  simpl. rewrite (rule_mask_no_predicates _ _ _ _ Hr). simpl.
  f_equal. rewrite map_map. apply map_ext_in. intros b _.
  rewrite (rule_mask_no_predicates _ _ _ _ Hr). done.
Qed.

Lemma strip_nonempty (s : string) : strip s <> "" -> s <> "".
Proof. intros H Hs. subst s. apply H. reflexivity. Qed.

(** C5 (amended): no validation rejects a rule without predicates.
    [parse_rule] accepts an object carrying only a (non-blank) name and
    returns a rule with no predicates, and [apply_rules_to_df] flags every
    row of the ledger for such a rule (unless it carries the built-in
    payroll rule's name, for which only the date gate applies). *)
Theorem zero_predicate_rule_accepted
    (py_str_other : jval -> string) (py_float_of_string : string -> option Q)
    (regex_search : string -> string -> bool) (name : string)
    (Hname : strip name <> "") :
  parse_rule py_str_other py_float_of_string (<["name" := JStr name]> ∅)
    = inr (mkRule (strip name) None None None None None) /\
  (forall (rule : AddbackRule) (df : list ARow) (payroll_start : Z),
     no_predicates rule ->
     map a_flag (apply_rules_to_df regex_search df [rule] payroll_start)
     = map (fun _ => true) df).
Proof.
  split.
  - unfold parse_rule, jget. rewrite lookup_insert_eq.
    assert (Hne : name <> "") by (apply strip_nonempty, Hname).
    unfold truthy. replace (String.eqb name "") with false
      by (symmetry; apply String.eqb_neq, Hne).
    simpl. replace (String.eqb (strip name) "") with false
      by (symmetry; apply String.eqb_neq, Hname).
    rewrite !lookup_insert_ne by done. rewrite !lookup_empty. reflexivity.
  - intros rule df ps Hr. unfold apply_rules_to_df. simpl.
    apply apply_rule_no_predicates, Hr.
Qed.

(** A plain substring test, standing for [re.search] on patterns free of regex metacharacters. *)
Definition substring_search (pattern text : string) : bool := contains text pattern.

(** C5 (counterexample): the object [{"name": "fuel"}] is parsed into a rule
    (no exception) and applying it flags both rows of a two-row ledger. *)
Lemma zero_predicate_rule_cex :
  let parsed := parse_rule (fun _ => "") (fun _ => None) (<["name" := JStr "fuel"]> ∅) in
  parsed = inr (mkRule "fuel" None None None None None) /\
  map a_flag
    (apply_rules_to_df substring_search
       [mkARow (mkTxn (Some 0%Z) "Rent" "Expense" "Landlord" "Rent" 500) false "";
        mkARow (mkTxn (Some 1%Z) "Sales" "Income" "Cust" "Inv" (-900)) false ""]
       [mkRule "fuel" None None None None None] 0) = [true; true].
Proof. vm_compute. split; reflexivity. Qed.

(** Witness of [zero_predicate_rule_accepted] on the rule named "fuel". *)
Lemma zero_predicate_rule_accepted_witness :
  strip "fuel" <> "" /\
  map a_flag
    (apply_rules_to_df substring_search
       [mkARow (mkTxn (Some 0%Z) "Rent" "Expense" "Landlord" "Rent" 500) false ""]
       [mkRule "fuel" None None None None None] 0) = [true].
Proof.
  assert (Hs : strip "fuel" <> "") by (vm_compute; discriminate).
  split; [exact Hs|].
  apply (proj2 (zero_predicate_rule_accepted (fun _ => "") (fun _ => None)
                  substring_search "fuel" Hs)).
  unfold no_predicates. simpl. repeat split. vm_compute. discriminate.
Defined.

(* ------------------------------------------------------------------ *)
(** ** Bank reconciliation *)

(** C8: with a ledger row of 100 on day 10, bank rows of 100 on days 12 and
    25 and a 14-day tolerance, the matcher pairs the ledger row with the
    day-12 bank row and leaves the day-25 bank row unmatched. *)
Theorem match_closest_bank_row :
  let res := match_qb_and_bank [mkLRow 0 (Some 10%Z) 100]
               [mkLRow 0 (Some 12%Z) 100; mkLRow 1 (Some 25%Z) 100] 14 in
  matched res = [mkMatchRow 0 0 (Some 10%Z) 100 (Some 12%Z) 100] /\
  unmatched_qb res = [] /\
  unmatched_bank res = [mkLRow 1 (Some 25%Z) 100].
Proof. vm_compute. repeat split. Qed.

(** Ties go to the bank row listed first: days 8 and 12 are both two days
    from day 10. *)
Example match_tie_first_row :
  matched (match_qb_and_bank [mkLRow 0 (Some 10%Z) 100]
             [mkLRow 5 (Some 12%Z) 100; mkLRow 6 (Some 8%Z) 100] 14)
  = [mkMatchRow 0 5 (Some 10%Z) 100 (Some 12%Z) 100].
Proof. vm_compute. reflexivity. Qed.

Lemma mem_label_In (l : Z) (ls : list Z) : mem_label l ls = true <-> In l ls.
Proof.
  unfold mem_label. rewrite existsb_exists. split.
  - intros [x [Hx Heq]]. apply Z.eqb_eq in Heq. subst. exact Hx.
  - intros H. exists l. split; [exact H | apply Z.eqb_refl].
Qed.

Lemma idxmin_In (dq : Z) (c : LRow) (cs : list LRow) : In (idxmin dq c cs) (c :: cs).
Proof.
  revert c. induction cs as [|c' cs IH]; intros c; simpl; [left; done|].
  destruct (date_diff dq c' <? date_diff dq c)%Z.
  - destruct (IH c') as [H|H]; [right; left; exact H | right; right; exact H].
  - destruct (IH c) as [H|H]; [left; exact H | right; right; exact H].
Qed.

(** The chosen bank row is a row of the bank table whose label is unused. *)
Lemma pick_spec (bank : list LRow) (tol : Z) (used : list Z) (q b : LRow) :
  pick bank tol used q = Some b -> In b bank /\ ~ In (l_label b) used.
Proof.
  unfold pick. destruct (group_labels bank _) as [|l ls]; [discriminate|].
  destruct (l_date q) as [dq|]; [|discriminate].
  match goal with |- context [match ?e with [] => None | _ :: _ => _ end] =>
    destruct e as [|c cs] eqn:Ec end; [discriminate|].
  intros Hb. injection Hb as <-.
  assert (Hin : In (idxmin dq c cs) (c :: cs)) by apply idxmin_In.
  rewrite <- Ec in Hin. apply filter_In in Hin as [Hin Hnu].
  apply filter_In in Hin as [Hin _].
  unfold loc_rows in Hin. apply in_flat_map in Hin as [l' [_ Hin]].
  apply filter_In in Hin as [Hin _]. split; [exact Hin|].
  intros Hu. apply mem_label_In in Hu. rewrite Hu in Hnu. discriminate.
Qed.

Lemma match_loop_bank (bank : list LRow) (tol : Z) (qb : list LRow) :
  forall used,
    List.NoDup (map m_bank_index (match_loop bank tol used qb)) /\
    (forall l, In l (map m_bank_index (match_loop bank tol used qb)) ->
       ~ In l used /\ In l (map l_label bank)).
Proof.
  induction qb as [|q qs IH]; intros used; simpl.
  - split; [constructor | intros l []].
  - destruct (pick bank tol used q) as [b|] eqn:Ep; [|apply IH].
    destruct (pick_spec _ _ _ _ _ Ep) as [Hb Hnu].
    destruct (IH (l_label b :: used)) as [Hnd Hl]. simpl. split.
    + constructor; [|exact Hnd]. intros Hin. apply Hl in Hin as [Hn _].
      apply Hn. left. reflexivity.
    + intros l [<- | Hin].
      * split; [exact Hnu | apply in_map, Hb].
      * apply Hl in Hin as [Hn Hm]. split; [|exact Hm].
        intros Hu. apply Hn. right. exact Hu.
Qed.

Lemma match_loop_qb (bank : list LRow) (tol : Z) (qb : list LRow) :
  List.NoDup (map l_label qb) ->
  forall used,
    List.NoDup (map m_qb_index (match_loop bank tol used qb)) /\
    incl (map m_qb_index (match_loop bank tol used qb)) (map l_label qb).
Proof.
  induction qb as [|q qs IH]; intros Hnd used; simpl.
  - split; [constructor | intros l []].
  - inversion Hnd as [|x xs Hq Hqs]. subst.
    destruct (pick bank tol used q) as [b|].
    + destruct (IH Hqs (l_label b :: used)) as [Hn Hi]. simpl. split.
      * constructor; [|exact Hn]. intros Hin. apply Hq, Hi, Hin.
      * intros l [<- | Hin]; [left; reflexivity | right; apply Hi, Hin].
    + destruct (IH Hqs used) as [Hn Hi]. split; [exact Hn|].
      intros l Hin. right. apply Hi, Hin.
Qed.

Lemma filter_length_split {A} (p : A -> bool) (l : list A) :
  (length (List.filter p l) + length (List.filter (fun x => negb (p x)) l) = length l)%nat.
Proof.
  induction l as [|a l IH]; simpl; [done|]. destruct (p a); simpl; lia.
Qed.

Lemma map_filter_label {A} (lab : A -> Z) (g : Z -> bool) (l : list A) :
  map lab (List.filter (fun x => g (lab x)) l) = List.filter g (map lab l).
Proof.
  induction l as [|a l IH]; simpl; [done|]. destruct (g (lab a)); simpl; congruence.
Qed.

(** Removing a duplicate-free set [M] of labels from a table with
    duplicate-free labels removes exactly [length M] rows. *)
Lemma filter_out_labels_length {A} (lab : A -> Z) (l : list A) (M : list Z) :
  List.NoDup (map lab l) -> List.NoDup M -> incl M (map lab l) ->
  (length M + length (List.filter (fun x => negb (mem_label (lab x) M)) l) = length l)%nat.
Proof.
  intros Hl HM Hinc.
  rewrite <- (filter_length_split (fun x => mem_label (lab x) M) l).
  f_equal. rewrite <- (length_map lab (List.filter _ l)).
  rewrite (map_filter_label lab (fun y => mem_label y M)).
  apply Nat.le_antisymm.
  - apply NoDup_incl_length; [exact HM|].
    intros y Hy. apply filter_In. split; [apply Hinc, Hy | apply mem_label_In, Hy].
  - apply NoDup_incl_length; [apply List.NoDup_filter, Hl|].
    intros y Hy. apply filter_In in Hy as [_ Hy]. apply mem_label_In, Hy.
Qed.

(** C9 (failing input of the matcher): two ledger rows sharing the index
    label 0 and one bank row. The first ledger row is matched; the
    [unmatched_qb] filter drops every row labelled 0, so the second ledger
    row, which has no bank match, is in neither output: [1 + 0 <> 2]. *)
Lemma match_duplicate_labels_cex :
  let qb := [mkLRow 0 (Some 10%Z) 100; mkLRow 0 (Some 11%Z) 100] in
  let res := match_qb_and_bank qb [mkLRow 0 (Some 10%Z) 100] 14 in
  length (matched res) = 1%nat /\ length (unmatched_qb res) = 0%nat /\
  (length (matched res) + length (unmatched_qb res) <> length qb)%nat.
Proof. vm_compute. repeat split. discriminate. Qed.

(** C9: when the index labels of each input table are distinct (as with
    the default RangeIndex of the tables the application passes), the
    matcher partitions both sides: matched pairs plus unmatched ledger
    rows number the ledger rows, matched pairs plus unmatched bank rows
    number the bank rows, no row is matched twice, and a row is unmatched
    exactly when it is not matched. *)
Theorem match_partitions (qb bank : list LRow) (date_tolerance_days : Z)
    (Hqb : List.NoDup (map l_label qb)) (Hbank : List.NoDup (map l_label bank)) :
  let res := match_qb_and_bank qb bank date_tolerance_days in
  (length (matched res) + length (unmatched_qb res) = length qb)%nat /\
  (length (matched res) + length (unmatched_bank res) = length bank)%nat /\
  List.NoDup (map m_qb_index (matched res)) /\
  List.NoDup (map m_bank_index (matched res)) /\
  (forall q, In q qb ->
     (In (l_label q) (map m_qb_index (matched res)) <-> ~ In q (unmatched_qb res))) /\
  (forall b, In b bank ->
     (In (l_label b) (map m_bank_index (matched res)) <-> ~ In b (unmatched_bank res))).
Proof.
  cbv zeta. unfold match_qb_and_bank. cbn [matched unmatched_qb unmatched_bank].
  set (ms := match_loop bank date_tolerance_days [] qb).
  destruct (match_loop_qb bank date_tolerance_days qb Hqb []) as [HqN HqI].
  destruct (match_loop_bank bank date_tolerance_days qb []) as [HbN HbI].
  fold ms in HqN, HqI, HbN, HbI.
  assert (HbI' : incl (map m_bank_index ms) (map l_label bank))
    by (intros l Hl; apply (HbI l Hl)).
  split; [|split; [|split; [|split; [|split]]]].
  - rewrite <- (length_map m_qb_index ms).
    apply filter_out_labels_length; assumption.
  - rewrite <- (length_map m_bank_index ms).
    apply filter_out_labels_length; assumption.
  - exact HqN.
  - exact HbN.
  - intros q Hq. rewrite filter_In, <- mem_label_In.
    destruct (mem_label (l_label q) (map m_qb_index ms)); simpl; split.
    + intros _ [_ H]. discriminate.
    + intros _. reflexivity.
    + intros H. discriminate.
    + intros H. exfalso. apply H. split; [exact Hq | reflexivity].
  - intros b Hb. rewrite filter_In, <- mem_label_In.
    destruct (mem_label (l_label b) (map m_bank_index ms)); simpl; split.
    + intros _ [_ H]. discriminate.
    + intros _. reflexivity.
    + intros H. discriminate.
    + intros H. exfalso. apply H. split; [exact Hb | reflexivity].
Qed.

(** Witness of [match_partitions] on the C8 scenario. *)
Lemma match_partitions_witness :
  List.NoDup (map l_label [mkLRow 0 (Some 10%Z) 100]) /\
  List.NoDup (map l_label [mkLRow 0 (Some 12%Z) 100; mkLRow 1 (Some 25%Z) 100]) /\
  (length (matched (match_qb_and_bank [mkLRow 0 (Some 10%Z) 100]
                      [mkLRow 0 (Some 12%Z) 100; mkLRow 1 (Some 25%Z) 100] 14))
   + length (unmatched_bank (match_qb_and_bank [mkLRow 0 (Some 10%Z) 100]
                      [mkLRow 0 (Some 12%Z) 100; mkLRow 1 (Some 25%Z) 100] 14)) = 2)%nat.
Proof.
  assert (H1 : List.NoDup (map l_label [mkLRow 0 (Some 10%Z) 100])).
  { simpl. constructor; [intros [] | constructor]. }
  assert (H2 : List.NoDup (map l_label [mkLRow 0 (Some 12%Z) 100; mkLRow 1 (Some 25%Z) 100])).
  { simpl. constructor; [intros [H|[]]; discriminate | constructor; [intros [] | constructor]]. }
  split; [exact H1|]. split; [exact H2|].
  apply (match_partitions _ _ 14 H1 H2).
Defined.

(* ================================================================== *)
(** * Further properties of the embedded code *)

(* ------------------------------------------------------------------ *)
(** ** Sums, magnitudes and filters *)

Lemma fold_left_Qplus_acc (xs : list Q) (a : Q) :
  fold_left Qplus xs a == a + fold_left Qplus xs 0.
Proof.
  revert a. induction xs as [|x xs IH]; intros a; simpl; [ring|].
  rewrite (IH (a + x)), (IH (0 + x)). ring.
Qed.

Lemma sumQ_nil : sumQ [] = 0.
Proof. reflexivity. Qed.

Lemma sumQ_cons (x : Q) (xs : list Q) : sumQ (x :: xs) == x + sumQ xs.
Proof. unfold sumQ. simpl. rewrite fold_left_Qplus_acc. ring. Qed.

Lemma sumQ_app (l1 l2 : list Q) : sumQ (l1 ++ l2) == sumQ l1 + sumQ l2.
Proof. unfold sumQ. rewrite fold_left_app, fold_left_Qplus_acc. reflexivity. Qed.

Lemma sumQ_nonneg (l : list Q) : (forall x, In x l -> 0 <= x) -> 0 <= sumQ l.
Proof.
  induction l as [|x l IH]; intros H; [apply Qle_refl|].
  rewrite sumQ_cons.
  assert (0 <= x) by (apply H; left; reflexivity).
  assert (0 <= sumQ l) by (apply IH; intros y Hy; apply H; right; exact Hy).
  lra.
Qed.

Lemma sumQ_nonpos (l : list Q) : (forall x, In x l -> x <= 0) -> sumQ l <= 0.
Proof.
  induction l as [|x l IH]; intros H; [apply Qle_refl|].
  rewrite sumQ_cons.
  assert (x <= 0) by (apply H; left; reflexivity).
  assert (sumQ l <= 0) by (apply IH; intros y Hy; apply H; right; exact Hy).
  lra.
Qed.

Lemma sumQ_perm (l l' : list Q) : Permutation l l' -> sumQ l == sumQ l'.
Proof.
  induction 1 as [| x l l' _ IH | x y l | l l' l'' _ IH1 _ IH2].
  - reflexivity.
  - rewrite !sumQ_cons, IH. reflexivity.
  - rewrite !sumQ_cons. ring.
  - rewrite IH1, IH2. reflexivity.
Qed.

Lemma Qltb_spec (x y : Q) : Qltb x y = true <-> x < y.
Proof.
  unfold Qltb. rewrite negb_true_iff, <- not_true_iff_false, Qle_bool_iff.
  split; [apply Qnot_le_lt | intros H H'; exact (Qlt_not_le _ _ H H')].
Qed.

Lemma net_to_positive_abs (x : Q) : net_to_positive x == Qabs x.
Proof.
  unfold net_to_positive. destruct (Qltb x 0) eqn:E.
  - apply Qltb_spec in E. rewrite Qabs_neg; [reflexivity | apply Qlt_le_weak, E].
  - rewrite Qabs_pos; [reflexivity|].
    apply Qnot_lt_le. intros H. apply Qltb_spec in H. congruence.
Qed.

Lemma net_to_positive_nonneg (x : Q) : 0 <= net_to_positive x.
Proof. rewrite net_to_positive_abs. apply Qabs_nonneg. Qed.

Lemma addbacks_of_nonneg (l : list Q) : 0 <= addbacks_of l.
Proof.
  unfold addbacks_of. destruct (existsb _ l).
  - apply sumQ_nonneg. intros x Hx. apply filter_In in Hx as [_ Hx].
    apply Qltb_spec in Hx. apply Qlt_le_weak, Hx.
  - assert (sumQ (List.filter (fun a => Qltb a 0) l) <= 0); [|lra].
    apply sumQ_nonpos. intros x Hx. apply filter_In in Hx as [_ Hx].
    apply Qltb_spec in Hx. apply Qlt_le_weak, Hx.
Qed.

Lemma filter_idem {A} (p : A -> bool) (l : list A) :
  List.filter p (List.filter p l) = List.filter p l.
Proof.
  induction l as [|a l IH]; simpl; [done|].
  destruct (p a) eqn:E; simpl; [rewrite E, IH|]; done.
Qed.

Lemma sum_where_ext_in (p q : FTxn -> bool) (l : list FTxn) :
  (forall r, In r l -> p r = q r) -> sum_where p l = sum_where q l.
Proof. intros H. unfold sum_where. f_equal. f_equal. apply List.filter_ext_in, H. Qed.

Lemma sum_where_filter (p q : FTxn -> bool) (l : list FTxn) :
  sum_where p (List.filter q l) = sum_where (fun r => q r && p r) l.
Proof.
  unfold sum_where. f_equal. f_equal.
  induction l as [|a l IH]; simpl; [done|].
  destruct (q a); simpl; [destruct (p a); simpl; [f_equal|]|]; exact IH.
Qed.

Lemma sum_where_false (l : list FTxn) : sum_where (fun _ => false) l = 0.
Proof. unfold sum_where. induction l as [|a l IH]; simpl; [done | exact IH]. Qed.

(** Case analysis on the [Z] comparisons of a goal. *)
Ltac zcases :=
  repeat match goal with
  | |- context [(?a <=? ?b)%Z] =>
      let E := fresh "E" in destruct (Z.leb_spec a b) as [E|E]
  | |- context [(?a <? ?b)%Z] =>
      let E := fresh "E" in destruct (Z.ltb_spec a b) as [E|E]
  end.

(** Forget the magnitudes of a goal, keeping that they are nonnegative. *)
Ltac magnitudes :=
  repeat match goal with
  | |- context [net_to_positive ?x] =>
      let H := fresh "Hm" in
      pose proof (net_to_positive_nonneg x) as H; revert H;
      generalize (net_to_positive x); intros ? ?
  | |- context [addbacks_of ?x] =>
      let H := fresh "Hm" in
      pose proof (addbacks_of_nonneg x) as H; revert H;
      generalize (addbacks_of x); intros ? ?
  end.

(* ------------------------------------------------------------------ *)
(** ** Year-1 forecast *)

Lemma months_ratio_nonneg (d : Z) :
  Qltb (inject_Z d / avg_month_days) 0 = (d <? 0)%Z.
Proof.
  destruct (Qltb _ 0) eqn:E; symmetry.
  - apply Qltb_spec in E. apply Z.ltb_lt.
    unfold Qlt, avg_month_days, Qdiv, Qmult, Qinv in E. simpl in E. lia.
  - apply Z.ltb_ge. destruct (Z.le_gt_cases 0 d) as [H|H]; [exact H|].
    exfalso. assert (Hl : inject_Z d / avg_month_days < 0).
    { unfold Qlt, avg_month_days, Qdiv, Qmult, Qinv. simpl. lia. }
    apply Qltb_spec in Hl. congruence.
Qed.

(** With no days left in year 1 (or a negative count), [forecast_year_1]
    reports zero remaining months and returns the YTD metrics unchanged,
    key for key, whatever the run rates. *)
Theorem forecast_no_remaining_days (ytd rates : metrics_dict) (days : Z)
    (Hd : (days <= 0)%Z) :
  let res := forecast_year_1 ytd rates days in
  snd res == 0 /\
  (forall k, fst res !! k = None <-> ytd !! k = None) /\
  (forall k v, ytd !! k = Some v -> exists w, fst res !! k = Some w /\ w == v).
Proof.
  cbv zeta. unfold forecast_year_1. cbn [fst snd]. rewrite months_ratio_nonneg.
  assert (Hmr : (if (days <? 0)%Z then 0 else inject_Z days / avg_month_days) == 0).
  { destruct (Z.ltb_spec days 0); [reflexivity|].
    replace days with 0%Z by lia. reflexivity. }
  split; [exact Hmr|]. split.
  - intros k. rewrite map_lookup_imap. destruct (ytd !! k); simpl; split; done.
  - intros k v Hv. rewrite map_lookup_imap, Hv. simpl. eexists; split; [reflexivity|].
    unfold get0. rewrite Hv, lookup_fmap.
    destruct (rates !! k); simpl; [rewrite Hmr|]; ring.
Qed.

(** Witness of [forecast_no_remaining_days] on a YTD revenue of 2000. *)
Lemma forecast_no_remaining_days_witness :
  (0 <= 0)%Z /\
  exists w, fst (forecast_year_1 {[ "revenue" := 2000 ]} {[ "revenue" := 500 ]} 0)
              !! "revenue" = Some w /\ w == 2000.
Proof.
  split; [lia|].
  exact (proj2 (proj2 (forecast_no_remaining_days {[ "revenue" := 2000 ]}
                          {[ "revenue" := 500 ]} 0 ltac:(lia)))
           "revenue" 2000 (lookup_singleton_eq _ _)).
Defined.

(** Forecasting from the run rates of the same YTD metrics over [d >= 31]
    days, with [rem >= 0] days remaining, scales every YTD value by
    [(d + rem) / d]: the average month length cancels out. *)
Theorem forecast_from_run_rates (ytd : metrics_dict) (d rem : Z)
    (Hd : (31 <= d)%Z) (Hrem : (0 <= rem)%Z) :
  forall k v, ytd !! k = Some v ->
  exists w, fst (forecast_year_1 ytd (calculate_run_rates ytd d) rem) !! k = Some w /\
            w == v * inject_Z (d + rem) / inject_Z d.
Proof.
  intros k v Hv. unfold forecast_year_1, calculate_run_rates. cbn [fst].
  rewrite run_rate_ratio_ge1, months_ratio_nonneg.
  replace (31 <=? d)%Z with true by (symmetry; apply Z.leb_le; lia).
  replace (rem <? 0)%Z with false by (symmetry; apply Z.ltb_ge; lia).
  rewrite map_lookup_imap, Hv. simpl. eexists; split; [reflexivity|].
  unfold get0. rewrite Hv, !lookup_fmap, Hv. simpl.
  assert (Hz : ~ inject_Z d == 0) by (unfold Qeq; simpl; lia).
  rewrite inject_Z_plus. unfold avg_month_days. field. exact Hz.
Qed.

(** Witness of [forecast_from_run_rates] on the pipeline test's numbers:
    2000 over 31 days, 304 days remaining. *)
Lemma forecast_from_run_rates_witness :
  (31 <= 31)%Z /\ (0 <= 304)%Z /\
  exists w, fst (forecast_year_1 {[ "revenue" := 2000 ]}
                   (calculate_run_rates {[ "revenue" := 2000 ]} 31) 304) !! "revenue" = Some w
            /\ w == 2000 * inject_Z (31 + 304) / inject_Z 31.
Proof.
  split; [lia|]. split; [lia|].
  exact (forecast_from_run_rates {[ "revenue" := 2000 ]} 31 304 ltac:(lia) ltac:(lia)
           "revenue" 2000 (lookup_singleton_eq _ _)).
Defined.

(* ------------------------------------------------------------------ *)
(** ** Legacy overhead add-ins *)

(** [compute_legacy_overhead_addins] is the magnitude of the net amount
    of the overhead rows dated in [[legacy_start, legacy_end]] (restricted
    to the included accounts when some are given); it is never negative. *)
Theorem legacy_addin_abs (df : list FTxn) (s e : Z) (accounts : list string) :
  0 <= compute_legacy_overhead_addins df s e accounts /\
  compute_legacy_overhead_addins df s e accounts ==
    Qabs (sum_where (fun r => date_ge (f_date r) s && date_le (f_date r) e
                              && c_is_overhead (f_row r)
                              && match accounts with
                                 | [] => true
                                 | _ => existsb (String.eqb (f_account r)) accounts
                                 end) df).
Proof.
  destruct df as [|r0 rest]; [split; [apply Qle_refl | reflexivity]|].
  unfold compute_legacy_overhead_addins.
  split; [apply net_to_positive_nonneg|]. rewrite net_to_positive_abs.
  erewrite sum_where_ext_in; [reflexivity|].
  intros r _. destruct accounts; simpl; [rewrite andb_true_r|]; reflexivity.
Qed.

(** The add-in computed over the legacy window [[owner_period_start,
    owner_revenue_start - 1]] for all accounts equals the
    [legacy_july_included_overhead] that [get_owner_metrics] reports when
    job costs are not excluded, provided the window ends by [current_date]. *)
Theorem legacy_addin_matches_owner_metrics (df : list FTxn) (ps cd rs : Z)
    (overrides : list string) (jp : option (list string))
    (Hrs : (rs <= cd + 1)%Z) :
  compute_legacy_overhead_addins df ps (rs - 1) [] ==
  o_legacy_july_included_overhead (get_owner_metrics df ps cd rs overrides false jp).
Proof.
  unfold get_owner_metrics. cbn [o_legacy_july_included_overhead].
  rewrite sum_where_filter.
  destruct df as [|r0 rest]; [reflexivity|].
  unfold compute_legacy_overhead_addins.
  erewrite sum_where_ext_in; [reflexivity|].
  intros r _. unfold date_ge, date_le, date_lt.
  destruct (f_date r) as [x|]; [|reflexivity].
  destruct (c_is_overhead (f_row r)); rewrite ?andb_true_r, ?andb_false_r; [|reflexivity].
  zcases; simpl; lia.
Qed.

(** Witness of [legacy_addin_matches_owner_metrics] on the owner fixture
    (July = days 0-30, revenue start day 31, current date day 152). *)
Lemma legacy_addin_matches_owner_metrics_witness :
  (31 <= 152 + 1)%Z /\
  compute_legacy_overhead_addins owner_fixture 0 (31 - 1) [] ==
  o_legacy_july_included_overhead (get_owner_metrics owner_fixture 0 152 31 [] false None).
Proof.
  split; [lia|]. exact (legacy_addin_matches_owner_metrics owner_fixture 0 152 31 [] None ltac:(lia)).
Defined.

(** Two successive non-zero add-ins [t1] then [t2] leave overhead,
    gross profit, net profit and SDE as one add-in of [t1 + t2] does; but
    [legacy_overhead_included] then records only the last add-in [t2]. *)
Theorem legacy_addins_compose (m : metrics_dict) (t1 t2 : Q)
    (H1 : ~ t1 == 0) (H2 : ~ t2 == 0) (H12 : ~ t1 + t2 == 0) :
  let a := apply_legacy_overhead_addins (Some (apply_legacy_overhead_addins (Some m) t1)) t2 in
  let b := apply_legacy_overhead_addins (Some m) (t1 + t2) in
  get0 a "overhead" == get0 b "overhead" /\
  get0 a "gross_profit" == get0 b "gross_profit" /\
  get0 a "net_profit" == get0 b "net_profit" /\
  get0 a "sde" == get0 b "sde" /\
  a !! "legacy_overhead_included" = Some t2 /\
  b !! "legacy_overhead_included" = Some (t1 + t2).
Proof.
  cbv zeta. unfold apply_legacy_overhead_addins.
  assert (E1 : Qeq_bool t1 0 = false) by (apply not_true_iff_false; rewrite Qeq_bool_iff; exact H1).
  assert (E2 : Qeq_bool t2 0 = false) by (apply not_true_iff_false; rewrite Qeq_bool_iff; exact H2).
  assert (E12 : Qeq_bool (t1 + t2) 0 = false)
    by (apply not_true_iff_false; rewrite Qeq_bool_iff; exact H12).
  rewrite E1, E2, E12. unfold get0.
  repeat (rewrite lookup_insert_eq || (rewrite lookup_insert_ne by discriminate)).
  repeat split; ring.
Qed.

(** Witness of [legacy_addins_compose]: add-ins of 50 then 25. *)
Lemma legacy_addins_compose_witness :
  ~ (50 : Q) == 0 /\ ~ (25 : Q) == 0 /\ ~ (50 + 25 : Q) == 0 /\
  apply_legacy_overhead_addins (Some (apply_legacy_overhead_addins (Some addin_test_base) 50)) 25
    !! "legacy_overhead_included" = Some 25.
Proof.
  assert (Ha : ~ (50 : Q) == 0) by discriminate.
  assert (Hb : ~ (25 : Q) == 0) by discriminate.
  assert (Hc : ~ (50 + 25 : Q) == 0) by discriminate.
  split; [exact Ha|]. split; [exact Hb|]. split; [exact Hc|].
  exact (proj1 (proj2 (proj2 (proj2 (proj2
           (legacy_addins_compose addin_test_base 50 25 Ha Hb Hc)))))).
Defined.

(* ------------------------------------------------------------------ *)
(** ** Period and owner metrics *)

(** Every bucket of [get_period_metrics] is a nonnegative magnitude, so
    net profit never exceeds gross profit, gross profit never exceeds
    revenue, and SDE is never below net profit. *)
Theorem period_metrics_bounds (df : list FTxn) :
  let m := get_period_metrics df in
  0 <= revenue m /\ 0 <= cogs m /\ 0 <= overhead m /\ 0 <= other_expense m /\
  0 <= addbacks m /\
  net_profit m <= gross_profit m /\ gross_profit m <= revenue m /\ net_profit m <= sde m.
Proof.
  cbv zeta. unfold get_period_metrics. cbv zeta.
  cbn [revenue cogs overhead other_expense addbacks net_profit gross_profit sde].
  magnitudes. repeat split; lra.
Qed.

(** The same bounds for [get_owner_metrics], including the legacy
    (July) buckets. *)
Theorem owner_metrics_bounds (df : list FTxn) (ps cd rs : Z) (overrides : list string)
    (ex : bool) (jp : option (list string)) :
  let o := get_owner_metrics df ps cd rs overrides ex jp in
  0 <= o_revenue o /\ 0 <= o_cogs o /\ 0 <= o_legacy_cogs o /\ 0 <= o_overhead o /\
  0 <= o_other_expense o /\ 0 <= o_addbacks o /\
  0 <= o_legacy_july_total_expense o /\ 0 <= o_legacy_july_excluded_job_cost o /\
  0 <= o_legacy_july_included_overhead o /\
  o_net_profit o <= o_gross_profit o /\ o_gross_profit o <= o_revenue o /\
  o_net_profit o <= o_sde o.
Proof.
  cbv zeta. unfold get_owner_metrics. cbv zeta.
  cbn [o_revenue o_cogs o_legacy_cogs o_overhead o_other_expense o_addbacks
       o_legacy_july_total_expense o_legacy_july_excluded_job_cost
       o_legacy_july_included_overhead o_net_profit o_gross_profit o_sde].
  magnitudes. repeat split; lra.
Qed.

(** Rows dated outside [[owner_period_start, current_date]], and rows
    without a date, never affect [get_owner_metrics]. *)
Theorem owner_metrics_window_only (df : list FTxn) (ps cd rs : Z)
    (overrides : list string) (ex : bool) (jp : option (list string)) :
  get_owner_metrics df ps cd rs overrides ex jp =
  get_owner_metrics (List.filter (fun r => date_ge (f_date r) ps && date_le (f_date r) cd) df)
    ps cd rs overrides ex jp.
Proof. unfold get_owner_metrics. rewrite filter_idem. reflexivity. Qed.

(** Rewrite, over a list whose rows all lie on or after [ps], every sum
    whose predicate agrees there with [q] into the sum over [q]. *)
Ltac sum_to Hw q :=
  match goal with
  | |- context [sum_where ?P ?l] =>
      lazymatch P with
      | q => fail
      | _ =>
          rewrite (sum_where_ext_in P q l) by
            (intros r Hr; specialize (Hw r Hr); revert Hw;
             unfold date_ge, date_lt; destruct (f_date r) as [x|]; [|discriminate];
             intros Hx; apply Z.leb_le in Hx;
             rewrite ?(proj2 (Z.leb_le _ _) Hx), ?(proj2 (Z.ltb_ge _ _) Hx);
             repeat (simpl; rewrite ?andb_true_r, ?andb_false_r);
             match goal with |- context [if ?b then _ else _] => destruct b | _ => idtac end;
             reflexivity)
      end
  end.

(** Without a legacy window ([owner_revenue_start = owner_period_start])
    and without account overrides, [get_owner_metrics] agrees with
    [get_period_metrics] on the rows of the owner window, and its legacy
    buckets are zero. *)
Theorem owner_metrics_no_legacy_window (df : list FTxn) (ps cd : Z) (ex : bool)
    (jp : option (list string)) :
  let o := get_owner_metrics df ps cd ps [] ex jp in
  let m := get_period_metrics
             (List.filter (fun r => date_ge (f_date r) ps && date_le (f_date r) cd) df) in
  o_revenue o == revenue m /\ o_cogs o == cogs m /\ o_overhead o == overhead m /\
  o_other_expense o == other_expense m /\ o_gross_profit o == gross_profit m /\
  o_net_profit o == net_profit m /\ o_addbacks o == addbacks m /\ o_sde o == sde m /\
  o_legacy_cogs o == 0 /\ o_legacy_july_total_expense o == 0 /\
  o_legacy_july_excluded_job_cost o == 0 /\ o_legacy_july_included_overhead o == 0.
Proof.
  cbv zeta. unfold get_owner_metrics, get_period_metrics. cbv zeta.
  cbn [o_revenue o_cogs o_legacy_cogs o_overhead o_other_expense o_addbacks
       o_legacy_july_total_expense o_legacy_july_excluded_job_cost
       o_legacy_july_included_overhead o_net_profit o_gross_profit o_sde
       revenue cogs overhead other_expense gross_profit net_profit addbacks sde].
  set (w := List.filter (fun r => date_ge (f_date r) ps && date_le (f_date r) cd) df).
  assert (Hw : forall r, In r w -> date_ge (f_date r) ps = true).
  { intros r Hr. apply filter_In in Hr as [_ Hr]. apply andb_true_iff in Hr. apply Hr. }
  repeat sum_to Hw (fun r : FTxn => c_is_revenue (f_row r)).
  repeat sum_to Hw (fun r : FTxn => c_is_cogs (f_row r)).
  repeat sum_to Hw (fun r : FTxn => c_is_overhead (f_row r)).
  repeat sum_to Hw (fun r : FTxn => c_is_other_expense (f_row r)).
  repeat sum_to Hw (fun _ : FTxn => false).
  rewrite !sum_where_false.
  rewrite (List.filter_ext (fun r => f_addback r || existsb (String.eqb (f_account r)) [])
             f_addback) by (intros r; apply orb_false_r).
  assert (Hov : forall x, net_to_positive (x + 0) == net_to_positive x).
  { intros x. rewrite !net_to_positive_abs, Qplus_0_r. reflexivity. }
  rewrite !Hov. repeat split; reflexivity.
Qed.

(* ------------------------------------------------------------------ *)
(** ** Token detection and rule application *)

Lemma string_app_assoc (a b c : string) : (a ++ b) ++ c = a ++ (b ++ c).
Proof. induction a as [|x a IH]; [reflexivity | exact (f_equal (String x) IH)]. Qed.

Lemma string_app_nonempty (a b : string) : b <> "" -> a ++ b <> "".
Proof. intros Hb. destruct a; [exact Hb | discriminate]. Qed.

(** Appending reasons with the [", "] separator joins them. *)
Lemma reasons_join (xs : list string) (s : string) :
  (forall x, In x xs -> x <> "") ->
  fold_left (fun s x => s ++ (if String.eqb s "" then "" else ", ") ++ x) xs s =
  if String.eqb s "" then String.concat ", " xs
  else match xs with [] => s | _ => s ++ ", " ++ String.concat ", " xs end.
Proof.
  revert s. induction xs as [|x xs IH]; intros s Hne; simpl.
  - destruct (String.eqb_spec s ""); [subst; reflexivity | reflexivity].
  - assert (Hx : x <> "") by (apply Hne; left; reflexivity).
    rewrite IH by (intros y Hy; apply Hne; right; exact Hy).
    destruct (String.eqb_spec s "") as [->|Hs].
    + assert (E : forall y, "" ++ y = y) by reflexivity. simpl. rewrite !E.
      replace (String.eqb x "") with false by (symmetry; apply String.eqb_neq, Hx).
      destruct xs; reflexivity.
    + replace (String.eqb s "") with false by (symmetry; apply String.eqb_neq, Hs).
      change (if false then "" else ", ") with ", ".
      replace (String.eqb (s ++ ", " ++ x) "") with false
        by (symmetry; apply String.eqb_neq, string_app_nonempty, string_app_nonempty, Hx).
      destruct xs; [reflexivity|]. rewrite !string_app_assoc. reflexivity.
Qed.

Lemma detect_fold (ws : string -> string -> bool) (ts : list string) (out : list ARow) :
  fold_left (detect_token ws) ts out =
  map (fun a => fold_left (fun a t =>
         if String.eqb t "" then a
         else if token_hit ws t a
              then mkARow (a_txn a) true
                     (a_reason a ++ (if String.eqb (a_reason a) "" then "" else ", ")
                      ++ "token=" ++ t)
              else a) ts a) out.
Proof.
  revert out. induction ts as [|t ts IH]; intros out; simpl.
  - symmetry. apply map_id.
  - rewrite IH. unfold detect_token. destruct (String.eqb t "").
    + reflexivity.
    + rewrite map_map. reflexivity.
Qed.

Lemma detect_row (ws : string -> string -> bool) (ts : list string) (a : ARow) :
  let hit t := negb (String.eqb t "")
               && (ws t (lower (t_name (a_txn a))) || ws t (lower (t_memo (a_txn a)))) in
  fold_left (fun a t =>
         if String.eqb t "" then a
         else if token_hit ws t a
              then mkARow (a_txn a) true
                     (a_reason a ++ (if String.eqb (a_reason a) "" then "" else ", ")
                      ++ "token=" ++ t)
              else a) ts a =
  mkARow (a_txn a) (a_flag a || existsb hit ts)
    (fold_left (fun s x => s ++ (if String.eqb s "" then "" else ", ") ++ x)
       (map (fun t => "token=" ++ t) (List.filter hit ts)) (a_reason a)).
Proof.
  cbv zeta. revert a. induction ts as [|t ts IH]; intros a; simpl.
  - destruct a; simpl. rewrite orb_false_r. reflexivity.
  - destruct (String.eqb t "") eqn:Et; simpl; [apply IH|].
    unfold token_hit. destruct (_ || _) eqn:Eh; simpl.
    + rewrite IH. simpl. rewrite orb_true_r. reflexivity.
    + apply IH.
Qed.

(** [detect_addbacks] resets every flag and reason, then flags a row
    exactly when one of the non-empty tokens (the base tokens, then the
    lowered custom tokens) occurs as a word in its lowered name or memo;
    its reason lists ["token=<t>"] for each such token in token order,
    joined by [", "] (a token given twice is listed twice). *)
Theorem detect_addbacks_rows (ws : string -> string -> bool) (df : list Txn)
    (custom_tokens : option (list string)) :
  let raw := (base_tokens ++ map lower (match custom_tokens with None => [] | Some ts => ts end))%list in
  detect_addbacks ws df custom_tokens =
  map (fun r =>
         let hit t := negb (String.eqb t "")
                      && (ws t (lower (t_name r)) || ws t (lower (t_memo r))) in
         mkARow r (existsb hit raw)
           (String.concat ", " (map (fun t => "token=" ++ t) (List.filter hit raw)))) df.
Proof.
  cbv zeta. unfold detect_addbacks. rewrite detect_fold, map_map.
  apply map_ext. intros r. rewrite detect_row. simpl.
  rewrite reasons_join; [reflexivity|].
  intros x Hx. apply in_map_iff in Hx as [t [<- _]]. discriminate.
Qed.

Lemma apply_rule_map (rs : string -> string -> bool) (ps : Z) (out : list ARow)
    (rule : AddbackRule) :
  apply_rule rs ps out rule =
  map (fun a =>
         if rule_mask rs ps rule (a_txn a)
         then mkARow (a_txn a) true
                (a_reason a ++ (if String.eqb (a_reason a) "" then "" else ", ")
                 ++ "rule=" ++ r_name rule)
         else a) out.
Proof.
  unfold apply_rule. destruct (existsb _ out) eqn:E; simpl; [reflexivity|].
  symmetry. rewrite <- (map_id out) at 2. apply map_ext_in. intros a Ha.
  destruct (rule_mask rs ps rule (a_txn a)) eqn:Em; [|reflexivity].
  exfalso. assert (Hx : existsb (fun a => rule_mask rs ps rule (a_txn a)) out = true)
    by (apply existsb_exists; exists a; split; assumption).
  congruence.
Qed.

Lemma apply_rules_fold (rs : string -> string -> bool) (ps : Z) (rules : list AddbackRule)
    (df : list ARow) :
  apply_rules_to_df rs df rules ps =
  map (fun a => fold_left (fun a rule =>
         if rule_mask rs ps rule (a_txn a)
         then mkARow (a_txn a) true
                (a_reason a ++ (if String.eqb (a_reason a) "" then "" else ", ")
                 ++ "rule=" ++ r_name rule)
         else a) rules a) df.
Proof.
  unfold apply_rules_to_df. revert df. induction rules as [|rule rules IH]; intros df; simpl.
  - symmetry. apply map_id.
  - rewrite IH, apply_rule_map, map_map. reflexivity.
Qed.

(** [apply_rules_to_df] keeps the rows (same number, same transactions,
    same order) and never clears a flag: a row ends up flagged exactly when
    it was flagged already or some rule's mask holds on it. *)
Theorem apply_rules_flags (rs : string -> string -> bool) (df : list ARow)
    (rules : list AddbackRule) (ps : Z) :
  let out := apply_rules_to_df rs df rules ps in
  map a_txn out = map a_txn df /\
  map a_flag out =
  map (fun a => a_flag a || existsb (fun rule => rule_mask rs ps rule (a_txn a)) rules) df.
Proof.
  cbv zeta. rewrite apply_rules_fold, !map_map. split; apply map_ext; intros a.
  - revert a. induction rules as [|rule rules IH]; intros a; simpl; [reflexivity|].
    rewrite IH. destruct (rule_mask _ _ _ _); reflexivity.
  - revert a. induction rules as [|rule rules IH]; intros a; simpl; [symmetry; apply orb_false_r|].
    destruct (rule_mask _ _ _ _); rewrite IH; simpl; [rewrite orb_true_r|]; reflexivity.
Qed.

(** The built-in rule list flags exactly the rows dated on or after
    [payroll_start] whose lowered memo contains "payroll" and whose
    absolute amount is within 25 of 2880 (inclusive), appending
    ["rule=weekly_payroll_addback_2880"] to their reason; every other row,
    in particular every row dated before [payroll_start] or undated, is
    returned unchanged. *)
Theorem default_rules_rows (rs : string -> string -> bool) (df : list ARow) (ps : Z) :
  apply_rules_to_df rs df default_rules ps =
  map (fun a =>
         if rs "payroll" (lower (t_memo (a_txn a))) && date_ge (t_date (a_txn a)) ps
            && Qle_bool (Qabs (Qabs (t_amount (a_txn a)) - 2880)) 25
         then mkARow (a_txn a) true
                (a_reason a ++ (if String.eqb (a_reason a) "" then "" else ", ")
                 ++ "rule=weekly_payroll_addback_2880")
         else a) df.
Proof.
  unfold apply_rules_to_df, default_rules. simpl. rewrite apply_rule_map.
  apply map_ext. intros a. unfold rule_mask. simpl. rewrite andb_true_r. reflexivity.
Qed.

(* ------------------------------------------------------------------ *)
(** ** Rules file round trip *)

Lemma as_list_json (pso : jval -> string) (l : option (list string)) :
  wf_text_list l -> as_list pso (json_of_list l) = l.
Proof.
  destruct l as [xs|]; [|reflexivity]. intros [Hne Hall]. simpl.
  rewrite map_map. simpl.
  assert (Hm : map (fun x => strip x) xs = xs).
  { rewrite <- (map_id xs) at 2. apply map_ext_in. intros x Hx.
    rewrite List.Forall_forall in Hall. apply (Hall x Hx). }
  rewrite Hm.
  assert (Hf : List.filter (fun x => negb (String.eqb x "")) xs = xs).
  { clear Hne Hm. induction xs as [|x xs IH]; [reflexivity|].
    inversion Hall as [|? ? [_ Hx] Hr]; subst. simpl.
    replace (String.eqb x "") with false by (symmetry; apply String.eqb_neq, Hx).
    simpl. rewrite IH by exact Hr. reflexivity. }
  rewrite Hf. destruct xs; [contradiction | reflexivity].
Qed.

Lemma opt_float_json (pso : jval -> string) (pfs : string -> option Q) (q : option Q) :
  opt_float pfs (json_of_num q) = Some q.
Proof. destruct q; reflexivity. Qed.

Lemma parse_rule_jsonable (pso : jval -> string) (pfs : string -> option Q)
    (r : AddbackRule) :
  wf_rule r -> parse_rule pso pfs (rule_to_jsonable r) = inr r.
Proof.
  destruct r as [n ac nc mc am tol]. intros (Hs & Hn & Ha & Hnc & Hm). simpl in *.
  unfold parse_rule, rule_to_jsonable, jget. cbn [r_name r_account_contains r_name_contains
    r_memo_contains r_amount r_amount_tolerance].
  repeat (rewrite lookup_insert_eq || (rewrite lookup_insert_ne by discriminate)).
  unfold truthy. replace (String.eqb n "") with false by (symmetry; apply String.eqb_neq, Hn).
  simpl. rewrite Hs. replace (String.eqb n "") with false by (symmetry; apply String.eqb_neq, Hn).
  rewrite !opt_float_json, !as_list_json by assumption. reflexivity.
Qed.

(** Writing well-formed rules with [rules_to_jsonable] and reading the
    resulting objects back with the loop of [load_rules] returns the same
    rules, in the same order. *)
Theorem rules_json_round_trip (pso : jval -> string) (pfs : string -> option Q)
    (rules : list AddbackRule) (Hwf : List.Forall wf_rule rules) :
  load_rules_data pso pfs (map JObj (rules_to_jsonable rules)) = inr rules.
Proof.
  induction Hwf as [|r rules Hr _ IH]; [reflexivity|].
  simpl. rewrite parse_rule_jsonable by exact Hr. simpl in IH. rewrite IH. reflexivity.
Qed.

(** Witness of [rules_json_round_trip]: the built-in rule list. *)
Lemma rules_json_round_trip_witness :
  List.Forall wf_rule default_rules /\
  load_rules_data (fun _ => "") (fun _ => None) (map JObj (rules_to_jsonable default_rules))
  = inr default_rules.
Proof.
  assert (H : List.Forall wf_rule default_rules).
  { constructor; [|constructor]. unfold wf_rule. simpl.
    split; [reflexivity|]. split; [discriminate|].
    split; [exact I|]. split; [exact I|].
    split; [discriminate|]. constructor; [|constructor].
    split; [reflexivity | discriminate]. }
  split; [exact H|]. exact (rules_json_round_trip _ _ default_rules H).
Defined.

(* ------------------------------------------------------------------ *)
(** ** Cash and accrual P&L *)

Lemma sum_pos_neg (l : list LRow) :
  sumQ (map l_amount (List.filter (fun r => Qltb 0 (l_amount r)) l))
  + sumQ (map l_amount (List.filter (fun r => Qltb (l_amount r) 0) l))
  == sumQ (map l_amount l).
Proof.
  induction l as [|r l IH]; [reflexivity|].
  cbn [List.filter map]. rewrite sumQ_cons.
  destruct (Qltb 0 (l_amount r)) eqn:E1; destruct (Qltb (l_amount r) 0) eqn:E2;
    cbn [map]; rewrite ?sumQ_cons.
  - apply Qltb_spec in E1, E2. lra.
  - rewrite <- IH. ring.
  - rewrite <- IH. ring.
  - assert (Hz : l_amount r == 0).
    { apply Qle_antisym; apply Qnot_lt_le; intros H; apply Qltb_spec in H; congruence. }
    rewrite <- IH, Hz. ring.
Qed.

(** [compute_cash_basis_pl] reports nonnegative cash revenue and cash
    expenses, and its net is the plain sum of the amounts of the bank rows
    dated inside the window (rows of amount 0 count in neither part). *)
Theorem cash_basis_bounds (bank_df : list LRow) (start_date end_date : Z) :
  let c := compute_cash_basis_pl bank_df start_date end_date in
  0 <= revenue_cash c /\ 0 <= expenses_cash c /\
  net_cash c == sumQ (map l_amount (List.filter (fun r => date_ge (l_date r) start_date
                                                        && date_le (l_date r) end_date)
                                      bank_df)).
Proof.
  cbv zeta. unfold compute_cash_basis_pl. cbn [revenue_cash expenses_cash net_cash].
  set (b := List.filter _ bank_df).
  assert (Hp : 0 <= sumQ (map l_amount (List.filter (fun r => Qltb 0 (l_amount r)) b))).
  { apply sumQ_nonneg. intros x Hx. apply in_map_iff in Hx as [r [<- Hr]].
    apply filter_In in Hr as [_ Hr]. apply Qltb_spec in Hr. apply Qlt_le_weak, Hr. }
  assert (Hn : sumQ (map l_amount (List.filter (fun r => Qltb (l_amount r) 0) b)) <= 0).
  { apply sumQ_nonpos. intros x Hx. apply in_map_iff in Hx as [r [<- Hr]].
    apply filter_In in Hr as [_ Hr]. apply Qltb_spec in Hr. apply Qlt_le_weak, Hr. }
  pose proof (sum_pos_neg b) as Hs.
  split; [exact Hp|]. split; [lra|]. rewrite <- Hs. ring.
Qed.

(** In [compute_cash_vs_accrual_summary] the accrual expenses are
    nonnegative, and the three differences are consistent: the net
    difference is the revenue difference minus the expenses difference. *)
Theorem cash_vs_accrual_consistent (qb_df : list Txn) (bank_df : list LRow)
    (start_date end_date : Z) :
  let s := compute_cash_vs_accrual_summary qb_df bank_df start_date end_date in
  0 <= expenses_accrual (accrual s) /\
  net_diff s == revenue_diff s - expenses_diff s.
Proof.
  cbv zeta. unfold compute_cash_vs_accrual_summary, compute_accrual_pl_from_qb,
    compute_cash_basis_pl. cbn.
  split; [|ring].
  match goal with |- 0 <= Qabs ?a + Qabs ?b =>
    pose proof (Qabs_nonneg a); pose proof (Qabs_nonneg b) end. lra.
Qed.

(* ------------------------------------------------------------------ *)
(** ** Matched pairs and reconciliation amounts *)

(** Two rows of a table with distinct labels that share a label are equal. *)
Lemma label_unique {A} (lab : A -> Z) (l : list A) (x y : A) :
  List.NoDup (map lab l) -> In x l -> In y l -> lab x = lab y -> x = y.
Proof.
  induction l as [|a l IH]; intros Hnd Hx Hy Hxy; [destruct Hx|].
  inversion Hnd as [|? ? Ha Hl]; subst.
  destruct Hx as [<-|Hx]; destruct Hy as [<-|Hy].
  - reflexivity.
  - exfalso. apply Ha. rewrite Hxy. apply in_map, Hy.
  - exfalso. apply Ha. rewrite <- Hxy. apply in_map, Hx.
  - apply IH; assumption.
Qed.

(** With distinct bank labels, the row [pick] chooses has the ledger row's
    rounded amount and a date within the tolerance of the ledger date. *)
Lemma pick_pair (bank : list LRow) (tol : Z) (used : list Z) (q b : LRow) :
  List.NoDup (map l_label bank) -> pick bank tol used q = Some b ->
  round_cents (l_amount b) = round_cents (l_amount q) /\
  exists dq d, l_date q = Some dq /\ l_date b = Some d /\
               (dq - tol <= d)%Z /\ (d <= dq + tol)%Z.
Proof.
  intros Hnd. unfold pick.
  destruct (group_labels bank _) as [|l ls] eqn:Eg; [discriminate|].
  destruct (l_date q) as [dq|]; [|discriminate].
  match goal with |- context [match ?e with [] => None | _ :: _ => _ end] =>
    destruct e as [|c cs] eqn:Ec end; [discriminate|].
  intros Hb. injection Hb as <-.
  assert (Hin : In (idxmin dq c cs) (c :: cs)) by apply idxmin_In.
  rewrite <- Ec in Hin. apply filter_In in Hin as [Hin _].
  apply filter_In in Hin as [Hin Hw].
  unfold loc_rows in Hin. apply in_flat_map in Hin as [l' [Hl' Hin]].
  apply filter_In in Hin as [Hin Hlab]. apply Z.eqb_eq in Hlab.
  rewrite <- Eg in Hl'. unfold group_labels in Hl'.
  apply in_map_iff in Hl' as [b' [Hb'l Hb']]. apply filter_In in Hb' as [Hb' Ham].
  apply Z.eqb_eq in Ham.
  assert (E : idxmin dq c cs = b') by (apply (label_unique l_label bank); congruence).
  rewrite E in Hw |- *. split; [exact Ham|].
  unfold in_window in Hw. destruct (l_date b') as [d|]; [|discriminate].
  apply andb_true_iff in Hw as [H1 H2]. apply Z.leb_le in H1, H2.
  exists dq, d. auto.
Qed.

(** Every matched row comes from one [pick] of a ledger row. *)
Lemma match_loop_rows (bank : list LRow) (tol : Z) (qb : list LRow) :
  forall used m, In m (match_loop bank tol used qb) ->
  exists used' q b, In q qb /\ pick bank tol used' q = Some b /\
    m = mkMatchRow (l_label q) (l_label b) (l_date q) (l_amount q) (l_date b) (l_amount b).
Proof.
  induction qb as [|q qs IH]; intros used m Hm; [destruct Hm|]. simpl in Hm.
  destruct (pick bank tol used q) as [b|] eqn:Ep.
  - destruct Hm as [<-|Hm].
    + exists used, q, b. split; [left; reflexivity|]. split; [exact Ep | reflexivity].
    + destruct (IH _ _ Hm) as (u & q' & b' & Hq & Hp & ->).
      exists u, q', b'. split; [right; exact Hq|]. split; [exact Hp | reflexivity].
  - destruct (IH _ _ Hm) as (u & q' & b' & Hq & Hp & ->).
    exists u, q', b'. split; [right; exact Hq|]. split; [exact Hp | reflexivity].
Qed.

(** When the bank labels are distinct, every pair [match_qb_and_bank]
    reports has a bank amount equal to the ledger amount after rounding to
    cents, and both dates present with the bank date within
    [date_tolerance_days] days of the ledger date. *)
Theorem matched_pairs_agree (qb bank : list LRow) (date_tolerance_days : Z)
    (Hbank : List.NoDup (map l_label bank)) :
  forall m, In m (matched (match_qb_and_bank qb bank date_tolerance_days)) ->
  round_cents (m_bank_amount m) = round_cents (m_qb_amount m) /\
  exists dq d, m_qb_date m = Some dq /\ m_bank_date m = Some d /\
               (dq - date_tolerance_days <= d)%Z /\ (d <= dq + date_tolerance_days)%Z.
Proof.
  intros m Hm. unfold match_qb_and_bank in Hm. cbn [matched] in Hm.
  destruct (match_loop_rows _ _ _ _ _ Hm) as (u & q & b & _ & Hp & ->).
  exact (pick_pair _ _ _ _ _ Hbank Hp).
Qed.

(** Witness of [matched_pairs_agree]: the C8 scenario. *)
Lemma matched_pairs_agree_witness :
  List.NoDup (map l_label [mkLRow 0 (Some 12%Z) 100; mkLRow 1 (Some 25%Z) 100]) /\
  In (mkMatchRow 0 0 (Some 10%Z) 100 (Some 12%Z) 100)
     (matched (match_qb_and_bank [mkLRow 0 (Some 10%Z) 100]
                 [mkLRow 0 (Some 12%Z) 100; mkLRow 1 (Some 25%Z) 100] 14)) /\
  round_cents 100 = round_cents 100.
Proof.
  assert (H : List.NoDup (map l_label [mkLRow 0 (Some 12%Z) 100; mkLRow 1 (Some 25%Z) 100])).
  { simpl. constructor; [intros [H|[]]; discriminate | constructor; [intros [] | constructor]]. }
  assert (Hm : In (mkMatchRow 0 0 (Some 10%Z) 100 (Some 12%Z) 100)
     (matched (match_qb_and_bank [mkLRow 0 (Some 10%Z) 100]
                 [mkLRow 0 (Some 12%Z) 100; mkLRow 1 (Some 25%Z) 100] 14)))
    by (vm_compute; left; reflexivity).
  split; [exact H|]. split; [exact Hm|].
  exact (proj1 (matched_pairs_agree [mkLRow 0 (Some 10%Z) 100]
                  [mkLRow 0 (Some 12%Z) 100; mkLRow 1 (Some 25%Z) 100] 14 H _ Hm)).
Defined.

Lemma sumQ_filter_split {A} (f : A -> Q) (p : A -> bool) (l : list A) :
  sumQ (map f (List.filter p l)) + sumQ (map f (List.filter (fun x => negb (p x)) l))
  == sumQ (map f l).
Proof.
  induction l as [|a l IH]; [reflexivity|]. cbn [List.filter map].
  destruct (p a); cbn [negb map]; rewrite !sumQ_cons, <- IH; ring.
Qed.

(** The rows of a table with distinct labels that a duplicate-free list of
    its rows does not label are the complement: their amounts and the
    list's amounts add up to the table's total. *)
Lemma sum_complement {A} (lab : A -> Z) (f : A -> Q) (l R : list A) :
  List.NoDup (map lab l) -> List.NoDup (map lab R) -> incl R l ->
  sumQ (map f R) + sumQ (map f (List.filter (fun x => negb (mem_label (lab x) (map lab R))) l))
  == sumQ (map f l).
Proof.
  intros Hl HR Hinc.
  rewrite <- (sumQ_filter_split f (fun x => mem_label (lab x) (map lab R)) l).
  apply Qplus_inj_r. apply sumQ_perm, Permutation_map, Permutation.NoDup_Permutation.
  - apply (NoDup_map_inv lab), HR.
  - apply List.NoDup_filter, (NoDup_map_inv lab), Hl.
  - intros x. rewrite filter_In, mem_label_In. split.
    + intros Hx. split; [apply Hinc, Hx | apply in_map, Hx].
    + intros [Hx Hlx]. apply in_map_iff in Hlx as [y [Hy HyR]].
      rewrite <- (label_unique lab l y x Hl (Hinc y HyR) Hx Hy). exact HyR.
Qed.

Lemma amount_sum_sumQ (rows : list LRow) : amount_sum rows == sumQ (map l_amount rows).
Proof. destruct rows; reflexivity. Qed.

(** When the index labels of each table are distinct, the amounts
    [reconcile_transactions] reports are conserved: the bank amounts of the
    matched pairs plus [unmatched_bank_amount] add up to the total of the
    bank table, and the ledger amounts of the matched pairs plus
    [unmatched_qb_amount] to the total of the ledger table. *)
Theorem reconcile_amounts_conserved (bank_df qb_df : list LRow) (date_window_days : Z)
    (Hqb : List.NoDup (map l_label qb_df)) (Hbank : List.NoDup (map l_label bank_df)) :
  let '(res, s) := reconcile_transactions bank_df qb_df date_window_days in
  sumQ (map m_bank_amount (matched res)) + unmatched_bank_amount s
    == sumQ (map l_amount bank_df) /\
  sumQ (map m_qb_amount (matched res)) + unmatched_qb_amount s
    == sumQ (map l_amount qb_df).
Proof.
  unfold reconcile_transactions, match_qb_and_bank.
  cbn [matched unmatched_qb unmatched_bank unmatched_bank_amount unmatched_qb_amount].
  set (ms := match_loop bank_df date_window_days [] qb_df).
  rewrite !amount_sum_sumQ.
  set (bank_row_of := fun m => mkLRow (m_bank_index m) (m_bank_date m) (m_bank_amount m)).
  set (qb_row_of := fun m => mkLRow (m_qb_index m) (m_qb_date m) (m_qb_amount m)).
  assert (Eb : map m_bank_index ms = map l_label (map bank_row_of ms))
    by (rewrite map_map; reflexivity).
  assert (Eq : map m_qb_index ms = map l_label (map qb_row_of ms))
    by (rewrite map_map; reflexivity).
  assert (Ab : map m_bank_amount ms = map l_amount (map bank_row_of ms))
    by (rewrite map_map; reflexivity).
  assert (Aq : map m_qb_amount ms = map l_amount (map qb_row_of ms))
    by (rewrite map_map; reflexivity).
  destruct (match_loop_bank bank_df date_window_days qb_df []) as [HbN _].
  destruct (match_loop_qb bank_df date_window_days qb_df Hqb []) as [HqN _].
  fold ms in HbN, HqN. rewrite Eb, Eq, Ab, Aq. rewrite Eb in HbN. rewrite Eq in HqN.
  split; apply sum_complement; try assumption.
  - intros x Hx. apply in_map_iff in Hx as [m [<- Hm]].
    destruct (match_loop_rows _ _ _ _ _ Hm) as (u & q & b & _ & Hp & ->).
    destruct (pick_spec _ _ _ _ _ Hp) as [Hb _]. destruct b. exact Hb.
  - intros x Hx. apply in_map_iff in Hx as [m [<- Hm]].
    destruct (match_loop_rows _ _ _ _ _ Hm) as (u & q & b & Hq & _ & ->).
    destruct q. exact Hq.
Qed.

(** Witness of [reconcile_amounts_conserved]: the C8 scenario. *)
Lemma reconcile_amounts_conserved_witness :
  List.NoDup (map l_label [mkLRow 0 (Some 10%Z) 100]) /\
  List.NoDup (map l_label [mkLRow 0 (Some 12%Z) 100; mkLRow 1 (Some 25%Z) 100]) /\
  unmatched_bank_amount (snd (reconcile_transactions
     [mkLRow 0 (Some 12%Z) 100; mkLRow 1 (Some 25%Z) 100] [mkLRow 0 (Some 10%Z) 100] 14))
  + 100 == 200.
Proof.
  assert (H1 : List.NoDup (map l_label [mkLRow 0 (Some 10%Z) 100])).
  { simpl. constructor; [intros [] | constructor]. }
  assert (H2 : List.NoDup (map l_label [mkLRow 0 (Some 12%Z) 100; mkLRow 1 (Some 25%Z) 100])).
  { simpl. constructor; [intros [H|[]]; discriminate | constructor; [intros [] | constructor]]. }
  split; [exact H1|]. split; [exact H2|].
  pose proof (reconcile_amounts_conserved
                [mkLRow 0 (Some 12%Z) 100; mkLRow 1 (Some 25%Z) 100]
                [mkLRow 0 (Some 10%Z) 100] 14 H1 H2) as H.
  destruct (reconcile_transactions _ _ _) as [res s] eqn:E.
  destruct H as [Hb _]. vm_compute in E. injection E as <- <-. exact Hb.
Defined.

(* ------------------------------------------------------------------ *)
(** ** Monthly KPI rollup *)

Lemma with_mom_pl (prev : option PLRow) (ps : list PLRow) :
  map kr_pl (with_mom prev ps) = ps.
Proof.
  revert prev. induction ps as [|p ps IH]; intros prev; simpl; [done|].
  f_equal. apply IH.
Qed.

Lemma with_mom_In (prev : option PLRow) (ps : list PLRow) (r : KpiRow) :
  In r (with_mom prev ps) -> exists prev' p, In p ps /\ r = kpi_row prev' p.
Proof.
  revert prev. induction ps as [|p ps IH]; intros prev Hr; [destruct Hr|].
  destruct Hr as [<-|Hr].
  - exists prev, p. split; [left|]; reflexivity.
  - destruct (IH _ Hr) as (pv & p' & Hp & ->). exists pv, p'. split; [right|]; auto.
Qed.

(** A successful [compute_monthly_kpis] has one P&L row per month key of
    the dated rows, with nonnegative magnitudes and the derived columns. *)
Lemma kpi_shape (df : list KTxn) (s : Z) (rows : list KpiRow) :
  compute_monthly_kpis df s = inr rows ->
  exists f : Z -> PLRow,
    rows = with_mom None (map f (group_keys (map kmonth (List.filter has_date df)))) /\
    forall m, let p := f m in
      pl_month p = m /\ 0 <= pl_revenue p /\ 0 <= pl_cogs p /\ 0 <= pl_overhead p /\
      0 <= pl_other_expense p /\ 0 <= pl_addbacks p /\
      pl_gross_profit p == pl_revenue p - pl_cogs p /\
      pl_net_profit p == pl_gross_profit p - pl_overhead p - pl_other_expense p /\
      pl_sde p == pl_net_profit p + pl_addbacks p.
Proof.
  unfold compute_monthly_kpis.
  assert (Hz : forall m, let p := mkPLRow m 0 0 0 0 0 0 0 0 in
      pl_month p = m /\ 0 <= pl_revenue p /\ 0 <= pl_cogs p /\ 0 <= pl_overhead p /\
      0 <= pl_other_expense p /\ 0 <= pl_addbacks p /\
      pl_gross_profit p == pl_revenue p - pl_cogs p /\
      pl_net_profit p == pl_gross_profit p - pl_overhead p - pl_other_expense p /\
      pl_sde p == pl_net_profit p + pl_addbacks p).
  { intros m. repeat split; simpl; try lra. }
  destruct df as [|r0 df0].
  { intros H. injection H as <-. exists (fun m => mkPLRow m 0 0 0 0 0 0 0 0). auto. }
  cbv zeta. destruct (List.filter has_date (r0 :: df0)) as [|r1 d1] eqn:Ed.
  { intros H. injection H as <-. exists (fun m => mkPLRow m 0 0 0 0 0 0 0 0). auto. }
  rewrite <- Ed. destruct (_ && _); [discriminate|].
  intros H. injection H as <-. eexists. split; [reflexivity|].
  intros m. cbv zeta. cbn [pl_month pl_revenue pl_cogs pl_overhead pl_other_expense
    pl_addbacks pl_gross_profit pl_net_profit pl_sde].
  repeat split; try reflexivity; try apply net_to_positive_nonneg.
  rewrite monthly_addbacks_abs_sum. apply sumQ_nonneg.
  intros x Hx. apply in_map_iff in Hx as [r [<- _]]. apply Qabs_nonneg.
Qed.

Lemma insert_key_sorted (m : Z) (ks : list Z) :
  StronglySorted Z.lt ks -> StronglySorted Z.lt (insert_key m ks).
Proof.
  induction ks as [|k ks IH]; intros Hs; simpl.
  - constructor; constructor.
  - inversion Hs as [|? ? Hks Hall]; subst.
    destruct (m =? k)%Z eqn:E1; [exact Hs|].
    destruct (m <? k)%Z eqn:E2.
    + apply Z.ltb_lt in E2. constructor; [exact Hs|].
      constructor; [exact E2|]. rewrite List.Forall_forall in Hall |- *.
      intros x Hx. specialize (Hall x Hx). lia.
    + apply Z.eqb_neq in E1. apply Z.ltb_ge in E2.
      constructor; [apply IH, Hks|]. rewrite List.Forall_forall in Hall |- *.
      intros x Hx. apply insert_key_In in Hx as [<-|Hx]; [lia | apply Hall, Hx].
Qed.

Lemma group_keys_sorted (ms : list Z) : StronglySorted Z.lt (group_keys ms).
Proof.
  induction ms as [|m ms IH]; simpl; [constructor|]. apply insert_key_sorted, IH.
Qed.

(** Whenever [compute_monthly_kpis] returns a table, its months are
    strictly increasing (one row per month, sorted) and are exactly the
    months of the input rows that carry a date; undated rows are dropped. *)
Theorem kpi_months (df : list KTxn) (owner_revenue_start : Z) (rows : list KpiRow)
    (H : compute_monthly_kpis df owner_revenue_start = inr rows) :
  StronglySorted Z.lt (map (fun r => pl_month (kr_pl r)) rows) /\
  forall m, In m (map (fun r => pl_month (kr_pl r)) rows) <->
            exists r, In r df /\ kt_date r <> None /\ kmonth r = m.
Proof.
  destruct (kpi_shape _ _ _ H) as (f & -> & Hf).
  rewrite <- (map_map kr_pl pl_month), with_mom_pl, map_map.
  assert (Hm : map (fun m => pl_month (f m)) (group_keys (map kmonth (List.filter has_date df)))
               = group_keys (map kmonth (List.filter has_date df))).
  { rewrite <- (map_id (group_keys _)) at 2. apply map_ext. intros m. apply (proj1 (Hf m)). }
  rewrite Hm. split; [apply group_keys_sorted|].
  intros m. rewrite group_keys_In, in_map_iff. split.
  - intros [r [<- Hr]]. apply filter_In in Hr as [Hr Hd]. exists r.
    split; [exact Hr|]. split; [|reflexivity]. unfold has_date in Hd.
    destruct (kt_date r); discriminate.
  - intros [r [Hr [Hd <-]]]. exists r. split; [reflexivity|].
    apply filter_In. split; [exact Hr|]. unfold has_date. destruct (kt_date r); congruence.
Qed.

Lemma Qeq_bool_false (x y : Q) : Qeq_bool x y = false <-> ~ x == y.
Proof.
  split; intros H.
  - intros E. apply Qeq_bool_iff in E. congruence.
  - destruct (Qeq_bool x y) eqn:E; [|reflexivity]. apply Qeq_bool_iff in E. contradiction.
Qed.

(** In every row [compute_monthly_kpis] returns, the margin columns are
    missing exactly when the month's revenue is 0; otherwise the gross
    margin and the COGS share add up to 1, the COGS and overhead shares
    are nonnegative, and the net margin never exceeds the SDE margin. *)
Theorem kpi_margins (df : list KTxn) (owner_revenue_start : Z) (rows : list KpiRow)
    (H : compute_monthly_kpis df owner_revenue_start = inr rows) :
  forall r, In r rows ->
  (kr_gross_margin_pct r = None <-> pl_revenue (kr_pl r) == 0) /\
  (forall g c, kr_gross_margin_pct r = Some g -> kr_cogs_pct r = Some c ->
     g + c == 1 /\ 0 <= c) /\
  (forall o, kr_overhead_pct r = Some o -> 0 <= o) /\
  (forall n s, kr_net_margin_pct r = Some n -> kr_sde_margin_pct r = Some s -> n <= s).
Proof.
  destruct (kpi_shape _ _ _ H) as (f & -> & Hf). intros r Hr.
  destruct (with_mom_In _ _ _ Hr) as (pv & p & Hp & ->).
  apply in_map_iff in Hp as [m [<- _]].
  destruct (Hf m) as (_ & Hrev & Hc & Ho & Hx & Ha & Hg & Hn & Hs).
  unfold kpi_row, safe_divide. cbn [kr_pl kr_gross_margin_pct kr_cogs_pct kr_overhead_pct
    kr_net_margin_pct kr_sde_margin_pct].
  destruct (Qeq_bool (pl_revenue (f m)) 0) eqn:E.
  - apply Qeq_bool_iff in E. split; [split; intros; [exact E | reflexivity]|].
    split; [intros g c Hg'; discriminate|]. split; [intros o Ho'; discriminate|].
    intros n s Hn'. discriminate.
  - apply Qeq_bool_false in E.
    assert (Hpos : 0 < pl_revenue (f m)) by (apply Qle_lt_or_eq in Hrev as [H1|H1];
      [exact H1 | exfalso; apply E; symmetry; exact H1]).
    split; [split; [discriminate | intros H0; contradiction]|].
    split; [|split].
    + intros g c Hg' Hc'. injection Hg' as <-. injection Hc' as <-. split.
      * rewrite Hg. field. exact E.
      * apply Qle_shift_div_l; [exact Hpos|]. lra.
    + intros o Ho'. injection Ho' as <-. apply Qle_shift_div_l; [exact Hpos|]. lra.
    + intros n s Hn' Hs'. injection Hn' as <-. injection Hs' as <-.
      apply Qmult_le_r with (pl_revenue (f m)); [exact Hpos|].
      unfold Qdiv. rewrite <- !Qmult_assoc, (Qmult_comm (/ _)), Qmult_inv_r by exact E.
      rewrite !Qmult_1_r, Hs. lra.
Qed.

Lemma with_mom_consecutive (prev : option PLRow) (ps : list PLRow)
    (pre : list KpiRow) (r1 r2 : KpiRow) (post : list KpiRow) :
  with_mom prev ps = (pre ++ r1 :: r2 :: post)%list ->
  r2 = kpi_row (Some (kr_pl r1)) (kr_pl r2).
Proof.
  revert prev pre. induction ps as [|p ps IH]; intros prev pre Hw.
  - destruct pre; discriminate.
  - destruct pre as [|x pre].
    + simpl in Hw. injection Hw as <- Hw. destruct ps as [|p' ps]; [discriminate|].
      simpl in Hw. injection Hw as <- _. reflexivity.
    + simpl in Hw. injection Hw as _ Hw. exact (IH _ _ Hw).
Qed.

Lemma guarded_none (x v : Q) :
  ((if Qeq_bool x 0 then None else Some v) = None) <-> x == 0.
Proof.
  destruct (Qeq_bool x 0) eqn:E.
  - apply Qeq_bool_iff in E. tauto.
  - apply Qeq_bool_false in E. split; [discriminate | contradiction].
Qed.

(** The month-over-month columns of [compute_monthly_kpis]: the first
    row has none; every later row compares with the row before it (the
    previous month present in the data): the delta is the difference of
    the values, and the percentage is missing exactly when the previous
    value is 0. *)
Theorem kpi_mom (df : list KTxn) (owner_revenue_start : Z) (rows : list KpiRow)
    (H : compute_monthly_kpis df owner_revenue_start = inr rows) :
  (forall r rest, rows = r :: rest ->
     kr_revenue_mom_delta r = None /\ kr_revenue_mom_pct r = None /\
     kr_net_profit_mom_delta r = None /\ kr_net_profit_mom_pct r = None /\
     kr_sde_mom_delta r = None /\ kr_sde_mom_pct r = None) /\
  (forall pre r1 r2 post, rows = (pre ++ r1 :: r2 :: post)%list ->
     let v1 := kr_pl r1 in let v2 := kr_pl r2 in
     kr_revenue_mom_delta r2 = Some (pl_revenue v2 - pl_revenue v1) /\
     (kr_revenue_mom_pct r2 = None <-> pl_revenue v1 == 0) /\
     kr_net_profit_mom_delta r2 = Some (pl_net_profit v2 - pl_net_profit v1) /\
     (kr_net_profit_mom_pct r2 = None <-> pl_net_profit v1 == 0) /\
     kr_sde_mom_delta r2 = Some (pl_sde v2 - pl_sde v1) /\
     (kr_sde_mom_pct r2 = None <-> pl_sde v1 == 0)).
Proof.
  destruct (kpi_shape _ _ _ H) as (f & -> & _). split.
  - intros r rest Hw. destruct (group_keys _) as [|k ks]; [discriminate|].
    simpl in Hw. injection Hw as <- _. repeat split.
  - intros pre r1 r2 post Hw. cbv zeta.
    rewrite (with_mom_consecutive _ _ _ _ _ _ Hw). unfold kpi_row, mom. cbn.
    rewrite !guarded_none. repeat split; auto.
Qed.

(** Rewriting the rows with a map that keeps dates, classifications,
    flags, the revenue boundary's amounts, and flagged rows, does not
    change the KPI table. *)
Section KpiMap.

Variable owner_revenue_start : Z.
Variable g : KTxn -> KTxn.
Hypothesis g_date : forall r, kt_date (g r) = kt_date r.
Hypothesis g_class : forall r, kt_classification (g r) = kt_classification r.
Hypothesis g_flag : forall r, kt_flag (g r) = kt_flag r.
Hypothesis g_amount_kpi : forall r, amount_kpi owner_revenue_start (g r)
                                    = amount_kpi owner_revenue_start r.
Hypothesis g_flagged : forall r, kt_flag r = true -> g r = r.

Lemma kmonth_map (r : KTxn) : kmonth (g r) = kmonth r.
Proof. unfold kmonth. rewrite g_date. reflexivity. Qed.

Lemma filter_has_date_map (df : list KTxn) :
  List.filter has_date (map g df) = map g (List.filter has_date df).
Proof.
  induction df as [|r df IH]; [reflexivity|]. cbn [map List.filter].
  unfold has_date at 1. rewrite g_date. fold (has_date r).
  destruct (has_date r); cbn [map]; rewrite IH; reflexivity.
Qed.

Lemma has_class_map (d : list KTxn) (c : string) : has_class (map g d) c = has_class d c.
Proof.
  induction d as [|r d IH]; [reflexivity|]. unfold has_class in *. cbn [map existsb].
  rewrite g_class, IH. reflexivity.
Qed.

Lemma raw_of_map (d : list KTxn) (m : Z) (classes : list string) :
  raw_of owner_revenue_start (map g d) m classes = raw_of owner_revenue_start d m classes.
Proof.
  unfold raw_of. f_equal.
  induction d as [|r d IH]; [reflexivity|]. cbn [map List.filter].
  rewrite kmonth_map, g_class.
  destruct (_ && _); cbn [map]; [rewrite g_amount_kpi, IH|]; exact IH || reflexivity.
Qed.

Lemma flagged_krows_map (d : list KTxn) :
  List.filter k_flag (map (fun r => mkKRow (kmonth r) (kt_amount r) (kt_flag r)) (map g d))
  = List.filter k_flag (map (fun r => mkKRow (kmonth r) (kt_amount r) (kt_flag r)) d).
Proof.
  induction d as [|r d IH]; [reflexivity|]. cbn [map List.filter k_flag].
  rewrite g_flag. destruct (kt_flag r) eqn:E.
  - rewrite (g_flagged r E), IH. reflexivity.
  - exact IH.
Qed.

Lemma kpi_map_invariant (df : list KTxn) :
  compute_monthly_kpis (map g df) owner_revenue_start
  = compute_monthly_kpis df owner_revenue_start.
Proof.
  unfold compute_monthly_kpis.
  destruct df as [|r0 df0]; [reflexivity|].
  change (match map g (r0 :: df0) with [] => ?a | _ :: _ => ?b end) with b.
  cbv beta iota zeta. rewrite filter_has_date_map.
  generalize (List.filter has_date (r0 :: df0)) as d. intros d.
  destruct d as [|r d]; [reflexivity|].
  change (match map g (r :: d) with [] => ?a | _ :: _ => ?b end) with b.
  rewrite !has_class_map.
  destruct (_ && _); [reflexivity|].
  rewrite (map_map g kmonth), (map_ext (fun x => kmonth (g x)) kmonth kmonth_map).
  do 2 f_equal. apply map_ext. intros m.
  rewrite !raw_of_map, !monthly_addbacks_abs_sum, flagged_krows_map. reflexivity.
Qed.

End KpiMap.

(** Revenue rows dated before [owner_revenue_start] that are not addback
    flagged do not affect [compute_monthly_kpis]: whatever their amounts,
    the result (table or exception) is the same. *)
Theorem kpi_pre_owner_revenue_ignored (df : list KTxn) (owner_revenue_start : Z)
    (new_amount : KTxn -> Q) :
  compute_monthly_kpis
    (map (fun r => if kt_is_revenue r && date_lt (kt_date r) owner_revenue_start
                      && negb (kt_flag r)
                   then mkKTxn (kt_date r) (kt_classification r) (new_amount r)
                          (kt_is_revenue r) (kt_flag r)
                   else r) df) owner_revenue_start
  = compute_monthly_kpis df owner_revenue_start.
Proof.
  apply kpi_map_invariant; intros r;
    destruct (kt_is_revenue r && date_lt (kt_date r) owner_revenue_start
              && negb (kt_flag r)) eqn:E; try reflexivity.
  - unfold amount_kpi. cbn [kt_is_revenue kt_date].
    apply andb_true_iff in E as [E _]. rewrite E. reflexivity.
  - intros Hf. rewrite Hf, andb_false_r in E. discriminate.
Qed.

(** A small ledger over July to September 2025 (day numbers from
    1970-01-01), with the owner start on 2025-08-01 (day 20301): a
    pre-owner revenue row, August revenue, COGS and a flagged overhead
    row, September revenue, and an undated row. *)
Definition kpi_example : list KTxn :=
  [mkKTxn (Some 20279%Z) "Revenue" (-500) true false;
   mkKTxn (Some 20305%Z) "Revenue" (-1000) true false;
   mkKTxn (Some 20306%Z) "COGS" 200 false false;
   mkKTxn (Some 20307%Z) "Overhead" 150 false true;
   mkKTxn (Some 20336%Z) "Revenue" (-2000) true false;
   mkKTxn None "Overhead" 999 false false].

Definition kpi_example_rows : list KpiRow :=
  match compute_monthly_kpis kpi_example 20301 with inr rows => rows | inl _ => [] end.

(** Witness of [kpi_months] on [kpi_example]. *)
Lemma kpi_months_witness :
  compute_monthly_kpis kpi_example 20301 = inr kpi_example_rows /\
  StronglySorted Z.lt (map (fun r => pl_month (kr_pl r)) kpi_example_rows).
Proof.
  assert (H : compute_monthly_kpis kpi_example 20301 = inr kpi_example_rows)
    by (vm_compute; reflexivity).
  split; [exact H|]. exact (proj1 (kpi_months _ _ _ H)).
Defined.

(** Witness of [kpi_margins] on [kpi_example]. *)
Lemma kpi_margins_witness :
  compute_monthly_kpis kpi_example 20301 = inr kpi_example_rows /\
  forall r, In r kpi_example_rows ->
    (kr_gross_margin_pct r = None <-> pl_revenue (kr_pl r) == 0).
Proof.
  assert (H : compute_monthly_kpis kpi_example 20301 = inr kpi_example_rows)
    by (vm_compute; reflexivity).
  split; [exact H|]. intros r Hr. exact (proj1 (kpi_margins _ _ _ H r Hr)).
Defined.

(** Witness of [kpi_mom] on [kpi_example]. *)
Lemma kpi_mom_witness :
  compute_monthly_kpis kpi_example 20301 = inr kpi_example_rows /\
  forall r rest, kpi_example_rows = r :: rest -> kr_revenue_mom_delta r = None.
Proof.
  assert (H : compute_monthly_kpis kpi_example 20301 = inr kpi_example_rows)
    by (vm_compute; reflexivity).
  split; [exact H|]. intros r rest Hr. exact (proj1 (proj1 (kpi_mom _ _ _ H) r rest Hr)).
Defined.

(* ------------------------------------------------------------------ *)
(** ** Ledger normalisation *)

Lemma NoDup_map_filter {A B} (f : A -> B) (p : A -> bool) (l : list A) :
  List.NoDup (map f l) -> List.NoDup (map f (List.filter p l)).
Proof.
  induction l as [|a l IH]; intros Hnd; [constructor|]. inversion Hnd as [|? ? Ha Hl]; subst.
  cbn [List.filter]. destruct (p a); [|apply IH, Hl].
  constructor; [|apply IH, Hl]. intros Hin. apply Ha.
  apply in_map_iff in Hin as [x [<- Hx]]. apply in_map. apply filter_In in Hx as [Hx _]. exact Hx.
Qed.

(** [normalize_qb_ledger_for_bank] keeps distinct index labels distinct
    (it only drops rows), and every row it returns has a date and a
    non-zero amount: its output meets the distinct-label precondition of
    the matcher whenever its input does. *)
Theorem normalize_qb_for_matching (df_qb : list QbRow)
    (Hqb : List.NoDup (map qr_label df_qb)) :
  let out := map qn_row (normalize_qb_ledger_for_bank df_qb) in
  List.NoDup (map l_label out) /\
  forall b, In b out -> l_date b <> None /\ ~ l_amount b == 0.
Proof.
  cbv zeta. unfold normalize_qb_ledger_for_bank. rewrite !map_map. cbn [l_label].
  split.
  - apply NoDup_map_filter, NoDup_map_filter, Hqb.
  - intros b Hb. apply in_map_iff in Hb as [r [<- Hr]].
    apply filter_In in Hr as [Hr Ha]. apply filter_In in Hr as [_ Hd].
    cbn [qn_row l_date l_amount]. split.
    + destruct (qr_date r); discriminate.
    + intros E. apply Qeq_bool_iff in E. rewrite E in Ha. discriminate.
Qed.

(** Witness of [normalize_qb_for_matching]: two dated rows, one of them
    of amount 0 (dropped), and an undated row. *)
Lemma normalize_qb_for_matching_witness :
  List.NoDup (map qr_label [mkQbRow 0 (Some 10%Z) (Some 100) "Acme" "inv 1" "Sales";
                            mkQbRow 1 (Some 11%Z) (Some 0) "" "" "Sales";
                            mkQbRow 2 None (Some 5) "" "" "Sales"]) /\
  List.NoDup (map l_label (map qn_row (normalize_qb_ledger_for_bank
                 [mkQbRow 0 (Some 10%Z) (Some 100) "Acme" "inv 1" "Sales";
                  mkQbRow 1 (Some 11%Z) (Some 0) "" "" "Sales";
                  mkQbRow 2 None (Some 5) "" "" "Sales"]))).
Proof.
  assert (H : List.NoDup (map qr_label
                 [mkQbRow 0 (Some 10%Z) (Some 100) "Acme" "inv 1" "Sales";
                  mkQbRow 1 (Some 11%Z) (Some 0) "" "" "Sales";
                  mkQbRow 2 None (Some 5) "" "" "Sales"])).
  { simpl. repeat constructor; simpl; intros H; repeat destruct H as [H|H]; try discriminate; exact H. }
  split; [exact H|]. exact (proj1 (normalize_qb_for_matching _ H)).
Defined.
